(** * Target Process MCP server: bootstrap and dispatch layer

    A shallow embedding of [src/server.ts] and of its environment-only
    variant, and the properties of configuration resolution, discovery,
    dispatch, error normalisation and cache warm-up stated over it. *)

From Stdlib Require Import String Ascii List ZArith Bool Lia DecimalString.
From stdpp Require Import base option gmap strings list.

Local Open Scope string_scope.
Local Open Scope list_scope.
Local Open Scope Z_scope.

Set Warnings "-register-all".

(** ** JavaScript values

    The values that flow through this layer: parsed JSON documents,
    request arguments, tool results, configuration objects and thrown
    values that are not [Error] instances.  Numbers are restricted to
    the safe integers (magnitude at most 2^53 - 1), the numbers whose
    string form is their plain decimal notation; objects are ordinary
    objects with [Object.prototype] as prototype, given by their own
    data properties in insertion order, none of which holds a
    function. *)

Record SafeInteger : Type := {
  integer : Z;
  integer_safe : (Z.abs integer <=? 9007199254740991) = true;
}.

Inductive JsValue : Type :=
| JUndefined
| JNull
| JBool (b : bool)
| JNum (n : SafeInteger)
| JString (s : string)
| JArray (items : list JsValue)
| JObject (props : list (string * JsValue)).

(** The number [z], for a literal [z] in the safe range. *)
Notation "'JNumber' z" := (JNum {| integer := z; integer_safe := eq_refl |})
  (at level 10, z at level 9).

(** [if (v)] and [!v]. *)
Definition truthy (v : JsValue) : bool :=
  match v with
  | JUndefined | JNull => false
  | JBool b => b
  | JNum n => negb (integer n =? 0)
  | JString s => negb (String.eqb s "")
  | JArray _ | JObject _ => true
  end.

Definition decimal (z : Z) : string := NilZero.string_of_int (Z.to_int z).

Fixpoint join (sep : string) (parts : list string) : string :=
  match parts with
  | [] => ""
  | [p] => p
  | p :: rest => p +:+ sep +:+ join sep rest
  end.

(** Own-property lookup [o[key]] in an object's property list. *)
Fixpoint own_property (key : string) (props : list (string * JsValue)) : JsValue :=
  match props with
  | [] => JUndefined
  | (k, v) :: rest => if String.eqb k key then v else own_property key rest
  end.

Fixpoint has_own_property (key : string) (props : list (string * JsValue)) : bool :=
  match props with
  | [] => false
  | (k, _) :: rest => String.eqb k key || has_own_property key rest
  end.

(** [needle] occurs in [hay] ([hay.includes(needle)]). *)
Fixpoint contains (needle hay : string) : bool :=
  match hay with
  | EmptyString => String.prefix needle hay
  | String _ rest => String.prefix needle hay || contains needle rest
  end.

(** ** The SDK's error class and thrown values *)

(** [ErrorCode] is a numeric enum of the SDK. *)
Module ErrorCode.
Definition MethodNotFound : Z := -32601.
Definition InternalError : Z := -32603.
End ErrorCode.

(** What a [catch (error)] clause can receive. [McpError] extends
    [Error]; [ErrorInstance] stands for every other [Error] instance
    ([Error], [TypeError], [SyntaxError], a backend client's errors);
    [ThrownValue] is any value that is not an [Error] instance. *)
Inductive Thrown : Type :=
| McpError (code : Z) (message : string)
| ErrorInstance (message : string)
| ThrownValue (v : JsValue).

Definition instanceof_McpError (e : Thrown) : bool :=
  match e with McpError _ _ => true | _ => false end.

Definition instanceof_Error (e : Thrown) : bool :=
  match e with McpError _ _ | ErrorInstance _ => true | ThrownValue _ => false end.

(** [error.message] of [new McpError(code, message)]: the SDK's
    constructor calls [super(`MCP error ${code}: ${message}`)]. *)
Definition McpError_message (code : Z) (message : string) : string :=
  "MCP error " +:+ decimal code +:+ ": " +:+ message.

(** ** Completions and the state-and-exception monad

    A call either returns or throws; an [async] function's promise
    either resolves or rejects.  [Outcome E A] is a result of type [A]
    or a failure of type [E]; a [Completion] fails with a thrown value.
    [Exec St A] threads a state of type [St] through code that may
    throw; what was written to the state before a throw stays
    written. *)

Inductive Outcome (E A : Type) : Type :=
| Return (a : A)
| Throw (e : E).
Arguments Return {E A} a.
Arguments Throw {E A} e.

Abbreviation Completion := (Outcome Thrown).

(** [String(v)].  Converting an object goes through its [toString]:
    the inherited one gives ['[object Object]']; an own property of that
    name, which here never holds a function, leaves no way to a
    primitive and the conversion throws a [TypeError].  An array joins
    the string forms of its elements with commas, [null] and
    [undefined] counting as empty, and throws where an element does. *)
Fixpoint js_String (v : JsValue) : Completion string :=
  match v with
  | JUndefined => Return "undefined"
  | JNull => Return "null"
  | JBool true => Return "true"
  | JBool false => Return "false"
  | JNum n => Return (decimal (integer n))
  | JString s => Return s
  | JArray items =>
      match
        (fix elems (l : list JsValue) : Completion (list string) :=
           match l with
           | [] => Return []
           | x :: r =>
               match
                 match x with
                 | JUndefined | JNull => Return ""
                 | _ => js_String x
                 end
               with
               | Return part =>
                   match elems r with
                   | Return parts => Return (part :: parts)
                   | Throw e => Throw e
                   end
               | Throw e => Throw e
               end
           end) items
      with
      | Return parts => Return (join "," parts)
      | Throw e => Throw e
      end
  | JObject props =>
      if has_own_property "toString" props
      then Throw (ErrorInstance "Cannot convert object to primitive value")
      else Return "[object Object]"
  end.

(** The idiom [error instanceof Error ? error.message : String(error)],
    which the source writes out in both of its [catch] clauses: the
    [message] of the two kinds of [Error] instance, the string form of
    anything else, which may throw in its turn. *)
Definition describe (error : Thrown) : Completion string :=
  match error with
  | McpError code message => Return (McpError_message code message)
  | ErrorInstance message => Return message
  | ThrownValue v => js_String v
  end.

Definition Exec (St A : Type) : Type := St -> St * Completion A.

Definition ret {St A} (a : A) : Exec St A := fun st => (st, Return a).

Definition throw {St A} (e : Thrown) : Exec St A := fun st => (st, Throw e).

Definition bind {St A B} (c : Exec St A) (k : A -> Exec St B) : Exec St B :=
  fun st =>
    match c st with
    | (st', Return a) => k a st'
    | (st', Throw e) => (st', Throw e)
    end.

Definition try_catch {St A} (body : Exec St A) (handler : Thrown -> Exec St A) : Exec St A :=
  fun st =>
    match body st with
    | (st', Return a) => (st', Return a)
    | (st', Throw e) => handler e st'
    end.

Definition lift {St A} (c : Completion A) : Exec St A := fun st => (st, c).

Notation "'let!' x ':=' c 'in' k" := (bind c (fun x => k))
  (at level 10, x name, c at level 100, k at level 200).
Notation "c ';;' k" := (bind c (fun _ => k))
  (at level 100, k at level 200, right associativity).

(** ** The process environment *)

(** An absolute, normalised path as its segments from the root. *)
Definition Path : Type := list string.

(** [path.join(base, ...segments)] on a normalised absolute [base]. *)
Fixpoint path_join (base : Path) (segments : list string) : Path :=
  match segments with
  | [] => base
  | seg :: rest =>
      if String.eqb seg ".." then path_join (removelast base) rest
      else if String.eqb seg "." || String.eqb seg "" then path_join base rest
      else path_join (base ++ [seg]) rest
  end.

(** What the process can observe at start-up.  [files] maps every path
    that exists to what [JSON.parse(fs.readFileSync(path, 'utf8'))]
    completes with there: the parsed document, or the [message] of the
    [Error] that reading or parsing throws (a system error of
    [fs.readFileSync], a [SyntaxError] of [JSON.parse]). *)
Record World : Type := {
  env : gmap string string;
  module_dir : Path;
  cwd : Path;
  files : gmap Path (Outcome string JsValue);
}.

Inductive ToolClass : Type :=
| SearchTool
| GetEntityTool
| CreateEntityTool
| UpdateEntityTool
| InspectObjectTool.

Inductive RequestSchema : Type :=
| ListToolsRequestSchema
| CallToolRequestSchema.

(** Observable actions, in program order. *)
Inductive Effect : Type :=
| FsExistsSync (p : Path)
| FsReadFileSync (p : Path)
| ConsoleError (text : string) (value : option Thrown)
| NewTPService (config : JsValue)
| NewTool (tool : ToolClass)
| NewServer (capabilities : list (string * bool))
| SetRequestHandler (schema : RequestSchema)
| SetOnError
| ProcessOn (signal : string)
| CallInitializeCache.

Definition Trace : Type := list Effect.

Definition tell (e : Effect) : Exec Trace unit := fun t => (t ++ [e], Return tt).

(** [process.env.NAME]. *)
Definition process_env (w : World) (name : string) : JsValue :=
  match env w !! name with
  | Some s => JString s
  | None => JUndefined
  end.

Definition fs_existsSync (w : World) (p : Path) : Exec Trace bool :=
  tell (FsExistsSync p);; ret (bool_decide (is_Some (files w !! p))).

(** [JSON.parse(fs.readFileSync(p, 'utf8'))]. *)
Definition JSON_parse_readFileSync (w : World) (p : Path) : Exec Trace JsValue :=
  tell (FsReadFileSync p);;
  lift (match files w !! p with
        | Some (Return doc) => Return doc
        | Some (Throw message) => Throw (ErrorInstance message)
        | None => Throw (ErrorInstance "ENOENT: no such file or directory")
        end).

(** [v[key]] for the keys this layer reads ([credentials], [token]),
    none of which is a property of a built-in prototype: reading from
    [null] or [undefined] throws a [TypeError], reading from any other
    value that is not an object with that own property gives
    [undefined]. *)
Definition js_get {St} (v : JsValue) (key : string) : Exec St JsValue :=
  match v with
  | JNull => throw (ErrorInstance ("Cannot read properties of null (reading '" +:+ key +:+ "')"))
  | JUndefined => throw (ErrorInstance ("Cannot read properties of undefined (reading '" +:+ key +:+ "')"))
  | JObject props => ret (own_property key props)
  | _ => ret JUndefined
  end.

(** [v?.[key]]. *)
Definition js_get_optional {St} (v : JsValue) (key : string) : Exec St JsValue :=
  match v with
  | JNull | JUndefined => ret JUndefined
  | _ => js_get v key
  end.

(** ** Collaborators

    The backend service handle and the five tool classes live outside
    this layer and are taken as parameters.  [Service] is the state of
    the shared handle; every tool instance holds a reference to the same
    handle, so [execute] and [initializeEntityTypeCache] act on one
    [Service] state.  [getDefinition] is the static method of each tool
    class; it returns the class's descriptor, which is static metadata. *)
Class Collaborators (Service : Type) : Type := {
  TPService_new : JsValue -> Service;
  initializeEntityTypeCache : Service -> Service * Completion unit;
  execute : ToolClass -> JsValue -> Service -> Service * Completion JsValue;
  getDefinition : ToolClass -> JsValue;
}.

(** The running server: the shared handle, what was written to the
    diagnostic stream since construction, whether the background
    warm-up is still in flight, and the exit code once the process has
    ended. *)
Record Server (Service : Type) : Type := {
  service : Service;
  console : list Effect;
  warming : bool;
  exit_code : option Z;
}.
Arguments service {Service} _.
Arguments console {Service} _.
Arguments warming {Service} _.
Arguments exit_code {Service} _.

(** What arrives at a running server. *)
Inductive Event : Type :=
| ListToolsRequest
| CallToolRequest (name : string) (arguments : JsValue)
| WarmupSettles
| ProtocolError (e : Thrown)
| Sigint.

(** Helpers shared by both variants of the class body. *)
Definition on_service {Service A} (call : Service -> Service * Completion A)
  : Exec (Server Service) A :=
  fun s =>
    let (sv, r) := call (service s) in
    ({| service := sv; console := console s; warming := warming s; exit_code := exit_code s |}, r).

Definition console_error {Service} (text : string) (value : option Thrown)
  : Exec (Server Service) unit :=
  fun s =>
    ({| service := service s; console := console s ++ [ConsoleError text value];
        warming := warming s; exit_code := exit_code s |}, Return tt).

Definition set_warming {Service} (b : bool) (s : Server Service) : Server Service :=
  {| service := service s; console := console s; warming := b; exit_code := exit_code s |}.

Definition set_exit_code {Service} (c : Z) (s : Server Service) : Server Service :=
  {| service := service s; console := console s; warming := warming s; exit_code := Some c |}.

(** The normalised error payload
    [{ content: [{ type: 'text', text }], isError: true }]. *)
Definition error_payload (text : string) : JsValue :=
  JObject [("content", JArray [JObject [("type", JString "text"); ("text", JString text)]]);
           ("isError", JBool true)].

(** ** [src/server.ts] *)
Module ServerTs.

Definition no_configuration_message : string :=
  "No configuration found. Please set environment variables (TP_DOMAIN and TP_TOKEN) or create config/targetprocess.json".

Definition token_required_message : string :=
  "Configuration must provide a Personal Access Token. See https://www.ibm.com/docs/en/targetprocess/tp-dev-hub/saas?topic=v1-authentication for details.".

(** [path.join(__dirname, '..', 'config', 'targetprocess.json')]. *)
Definition configPath (w : World) : Path :=
  path_join (module_dir w) [".."; "config"; "targetprocess.json"].

Definition loadConfig (w : World) : Exec Trace JsValue :=
  if truthy (process_env w "TP_DOMAIN") && truthy (process_env w "TP_TOKEN") then
    ret (JObject [("domain", process_env w "TP_DOMAIN");
                  ("credentials", JObject [("token", process_env w "TP_TOKEN")])])
  else
    let! found := fs_existsSync w (configPath w) in
    if negb found then
      tell (ConsoleError no_configuration_message None);;
      throw (McpError ErrorCode.InternalError no_configuration_message)
    else
      try_catch
        (let! config := JSON_parse_readFileSync w (configPath w) in
         let! credentials := js_get config "credentials" in
         let! token := js_get_optional credentials "token" in
         if negb (truthy token) then
           throw (McpError ErrorCode.InternalError token_required_message)
         else ret config)
        (fun error =>
           let! logged := lift (describe error) in
           tell (ConsoleError ("Error parsing config file: " +:+ logged) None);;
           let! thrown := lift (describe error) in
           throw (McpError ErrorCode.InternalError
                    ("Error parsing config file: " +:+ thrown))).

Section TargetProcessServer.
Context {Service : Type} `{!Collaborators Service}.

(** The constructor's body after [const config = loadConfig()]. *)
Definition constructor_after_config (config : JsValue) : Exec Trace (Server Service) :=
  tell (NewTPService config);;
  let service := TPService_new config in
  tell (NewTool SearchTool);;
  tell (NewTool GetEntityTool);;
  tell (NewTool CreateEntityTool);;
  tell (NewTool UpdateEntityTool);;
  tell (NewTool InspectObjectTool);;
  tell (NewServer [("search_entities", true); ("get_entity", true); ("create_entity", true);
                   ("update_entity", true); ("inspect_object", true)]);;
  tell (SetRequestHandler ListToolsRequestSchema);;
  tell (SetRequestHandler CallToolRequestSchema);;
  tell SetOnError;;
  tell (ProcessOn "SIGINT");;
  tell CallInitializeCache;;
  ret {| service := service; console := []; warming := true; exit_code := None |}.

Definition constructor (w : World) : Exec Trace (Server Service) :=
  let! config := loadConfig w in
  constructor_after_config config.

Definition initializeCache : Exec (Server Service) unit :=
  try_catch
    (on_service initializeEntityTypeCache)
    (fun error => console_error "Cache initialization error:" (Some error)).

Definition ListToolsRequestHandler : Exec (Server Service) JsValue :=
  ret (JObject [("tools", JArray [getDefinition SearchTool;
                                  getDefinition GetEntityTool;
                                  getDefinition CreateEntityTool;
                                  getDefinition UpdateEntityTool;
                                  getDefinition InspectObjectTool])]).

(** The [switch] inside the handler's [try] block. *)
Definition dispatch (name : string) (arguments : JsValue) : Exec (Server Service) JsValue :=
  if String.eqb name "search_entities" then on_service (execute SearchTool arguments)
  else if String.eqb name "get_entity" then on_service (execute GetEntityTool arguments)
  else if String.eqb name "create_entity" then on_service (execute CreateEntityTool arguments)
  else if String.eqb name "update_entity" then on_service (execute UpdateEntityTool arguments)
  else if String.eqb name "inspect_object" then on_service (execute InspectObjectTool arguments)
  else throw (McpError ErrorCode.MethodNotFound ("Unknown tool: " +:+ name)).

Definition CallToolRequestHandler (name : string) (arguments : JsValue)
  : Exec (Server Service) JsValue :=
  try_catch
    (dispatch name arguments)
    (fun error =>
       if instanceof_McpError error then throw error
       else
         let! description := lift (describe error) in
         ret (error_payload ("Target Process API error: " +:+ description))).

(** One turn of the event loop.  A request is answered with what its
    handler's promise settles to.  The warm-up's continuation runs
    when the collaborator's promise settles; were [initializeCache]
    itself to reject, nothing would handle the rejection and Node
    would end the process with code 1.  [SIGINT] closes the server
    and exits with code 0; a process that has exited handles
    nothing. *)
Definition step (s : Server Service) (ev : Event)
  : Server Service * option (Completion JsValue) :=
  match exit_code s with
  | Some _ => (s, None)
  | None =>
      match ev with
      | ListToolsRequest =>
          let (s', r) := ListToolsRequestHandler s in (s', Some r)
      | CallToolRequest name arguments =>
          let (s', r) := CallToolRequestHandler name arguments s in (s', Some r)
      | WarmupSettles =>
          if warming s then
            match initializeCache s with
            | (s', Return _) => (set_warming false s', None)
            | (s', Throw _) => (set_exit_code 1 (set_warming false s'), None)
            end
          else (s, None)
      | ProtocolError e =>
          let (s', _) := console_error "[MCP Error]" (Some e) s in (s', None)
      | Sigint => (set_exit_code 0 s, None)
      end
  end.

(** The turns taken for a sequence of events, with the answer given at
    each; this is what the transport connected by [run()] drives. *)
Fixpoint serve (s : Server Service) (events : list Event)
  : Server Service * list (option (Completion JsValue)) :=
  match events with
  | [] => (s, [])
  | ev :: rest =>
      let (s', r) := step s ev in
      let (s'', rs) := serve s' rest in
      (s'', r :: rs)
  end.

(** [run()]: connect the transport, then write the readiness notice to
    the diagnostic stream.  [connect] is what
    [this.server.connect(transport)] settles to and [timestamp] what
    [new Date().toISOString()] gives once the connection is there. *)
Definition run (connect : Completion unit) (timestamp : string)
  : Exec (Server Service) unit :=
  lift connect;;
  console_error
    ("Target Process MCP server running on stdio (started at " +:+ timestamp +:+ ")") None.
End TargetProcessServer.

End ServerTs.

(** ** The environment-only variant of the server module *)
Module Part000.

Definition environment_required_message : string :=
  "TP_DOMAIN and TP_TOKEN must be set in the MCP server environment configuration. " +:+
  "See https://www.ibm.com/docs/en/targetprocess/tp-dev-hub/saas?topic=v1-authentication for token details.".

Definition loadConfig (w : World) : Exec Trace JsValue :=
  let domain := process_env w "TP_DOMAIN" in
  let token := process_env w "TP_TOKEN" in
  if negb (truthy domain) || negb (truthy token) then
    throw (McpError ErrorCode.InternalError environment_required_message)
  else
    ret (JObject [("domain", domain); ("credentials", JObject [("token", token)])]).

Section TargetProcessServer.
Context {Service : Type} `{!Collaborators Service}.

(** The constructor's body after [const config = loadConfig()]. *)
Definition constructor_after_config (config : JsValue) : Exec Trace (Server Service) :=
  tell (NewTPService config);;
  let service := TPService_new config in
  tell (NewTool SearchTool);;
  tell (NewTool GetEntityTool);;
  tell (NewTool CreateEntityTool);;
  tell (NewTool UpdateEntityTool);;
  tell (NewTool InspectObjectTool);;
  tell (NewServer [("search_entities", true); ("get_entity", true); ("create_entity", true);
                   ("update_entity", true); ("inspect_object", true)]);;
  tell (SetRequestHandler ListToolsRequestSchema);;
  tell (SetRequestHandler CallToolRequestSchema);;
  tell SetOnError;;
  tell (ProcessOn "SIGINT");;
  tell CallInitializeCache;;
  ret {| service := service; console := []; warming := true; exit_code := None |}.

Definition constructor (w : World) : Exec Trace (Server Service) :=
  let! config := loadConfig w in
  constructor_after_config config.

Definition initializeCache : Exec (Server Service) unit :=
  try_catch
    (on_service initializeEntityTypeCache)
    (fun error => console_error "Cache initialization error:" (Some error)).

Definition ListToolsRequestHandler : Exec (Server Service) JsValue :=
  ret (JObject [("tools", JArray [getDefinition SearchTool;
                                  getDefinition GetEntityTool;
                                  getDefinition CreateEntityTool;
                                  getDefinition UpdateEntityTool;
                                  getDefinition InspectObjectTool])]).

(** The [switch] inside the handler's [try] block. *)
Definition dispatch (name : string) (arguments : JsValue) : Exec (Server Service) JsValue :=
  if String.eqb name "search_entities" then on_service (execute SearchTool arguments)
  else if String.eqb name "get_entity" then on_service (execute GetEntityTool arguments)
  else if String.eqb name "create_entity" then on_service (execute CreateEntityTool arguments)
  else if String.eqb name "update_entity" then on_service (execute UpdateEntityTool arguments)
  else if String.eqb name "inspect_object" then on_service (execute InspectObjectTool arguments)
  else throw (McpError ErrorCode.MethodNotFound ("Unknown tool: " +:+ name)).

Definition CallToolRequestHandler (name : string) (arguments : JsValue)
  : Exec (Server Service) JsValue :=
  try_catch
    (dispatch name arguments)
    (fun error =>
       if instanceof_McpError error then throw error
       else
         let! description := lift (describe error) in
         ret (error_payload ("Target Process API error: " +:+ description))).

(** One turn of the event loop.  A request is answered with what its
    handler's promise settles to.  The warm-up's continuation runs
    when the collaborator's promise settles; were [initializeCache]
    itself to reject, nothing would handle the rejection and Node
    would end the process with code 1.  [SIGINT] closes the server
    and exits with code 0; a process that has exited handles
    nothing. *)
Definition step (s : Server Service) (ev : Event)
  : Server Service * option (Completion JsValue) :=
  match exit_code s with
  | Some _ => (s, None)
  | None =>
      match ev with
      | ListToolsRequest =>
          let (s', r) := ListToolsRequestHandler s in (s', Some r)
      | CallToolRequest name arguments =>
          let (s', r) := CallToolRequestHandler name arguments s in (s', Some r)
      | WarmupSettles =>
          if warming s then
            match initializeCache s with
            | (s', Return _) => (set_warming false s', None)
            | (s', Throw _) => (set_exit_code 1 (set_warming false s'), None)
            end
          else (s, None)
      | ProtocolError e =>
          let (s', _) := console_error "[MCP Error]" (Some e) s in (s', None)
      | Sigint => (set_exit_code 0 s, None)
      end
  end.

(** The turns taken for a sequence of events, with the answer given at
    each; this is what the transport connected by [run()] drives. *)
Fixpoint serve (s : Server Service) (events : list Event)
  : Server Service * list (option (Completion JsValue)) :=
  match events with
  | [] => (s, [])
  | ev :: rest =>
      let (s', r) := step s ev in
      let (s'', rs) := serve s' rest in
      (s'', r :: rs)
  end.

(** [run()]: connect the transport, then write the readiness notice to
    the diagnostic stream.  [connect] is what
    [this.server.connect(transport)] settles to and [timestamp] what
    [new Date().toISOString()] gives once the connection is there. *)
Definition run (connect : Completion unit) (timestamp : string)
  : Exec (Server Service) unit :=
  lift connect;;
  console_error
    ("Target Process MCP server running on stdio (started at " +:+ timestamp +:+ ")") None.
End TargetProcessServer.

End Part000.

(** ** The two variants side by side *)

Inductive Variant : Type :=
| FileFallback      (* src/server.ts *)
| EnvironmentOnly.  (* the environment-only module *)

Definition loadConfig_of (v : Variant) : World -> Exec Trace JsValue :=
  match v with
  | FileFallback => ServerTs.loadConfig
  | EnvironmentOnly => Part000.loadConfig
  end.

Section Selectors.
Context {Service : Type} `{!Collaborators Service}.

Definition constructor_of (v : Variant) : World -> Exec Trace (Server Service) :=
  match v with
  | FileFallback => ServerTs.constructor
  | EnvironmentOnly => Part000.constructor
  end.

Definition initializeCache_of (v : Variant) : Exec (Server Service) unit :=
  match v with
  | FileFallback => ServerTs.initializeCache
  | EnvironmentOnly => Part000.initializeCache
  end.

Definition ListToolsRequestHandler_of (v : Variant) : Exec (Server Service) JsValue :=
  match v with
  | FileFallback => ServerTs.ListToolsRequestHandler
  | EnvironmentOnly => Part000.ListToolsRequestHandler
  end.

Definition dispatch_of (v : Variant) : string -> JsValue -> Exec (Server Service) JsValue :=
  match v with
  | FileFallback => ServerTs.dispatch
  | EnvironmentOnly => Part000.dispatch
  end.

Definition CallToolRequestHandler_of (v : Variant)
  : string -> JsValue -> Exec (Server Service) JsValue :=
  match v with
  | FileFallback => ServerTs.CallToolRequestHandler
  | EnvironmentOnly => Part000.CallToolRequestHandler
  end.

Definition step_of (v : Variant)
  : Server Service -> Event -> Server Service * option (Completion JsValue) :=
  match v with
  | FileFallback => ServerTs.step
  | EnvironmentOnly => Part000.step
  end.

Definition serve_of (v : Variant)
  : Server Service -> list Event -> Server Service * list (option (Completion JsValue)) :=
  match v with
  | FileFallback => ServerTs.serve
  | EnvironmentOnly => Part000.serve
  end.
End Selectors.

(** ** Vocabulary of the properties *)

(** The identifiers the [switch] of the dispatch handler knows. *)
Definition registered_names : list string :=
  ["search_entities"; "get_entity"; "create_entity"; "update_entity"; "inspect_object"].

Definition tool_name (tool : ToolClass) : string :=
  match tool with
  | SearchTool => "search_entities"
  | GetEntityTool => "get_entity"
  | CreateEntityTool => "create_entity"
  | UpdateEntityTool => "update_entity"
  | InspectObjectTool => "inspect_object"
  end.

Definition all_tools : list ToolClass :=
  [SearchTool; GetEntityTool; CreateEntityTool; UpdateEntityTool; InspectObjectTool].

(** An environment variable that is unset or set to the empty string. *)
Definition env_missing (w : World) (name : string) : Prop :=
  env w !! name = None \/ env w !! name = Some "".

(** [config.credentials?.token] of a configuration that is not [null]. *)
Definition config_token (config : JsValue) : JsValue :=
  match config with
  | JObject props =>
      match own_property "credentials" props with
      | JObject credentials => own_property "token" credentials
      | _ => JUndefined
      end
  | _ => JUndefined
  end.

Definition config_domain (config : JsValue) : JsValue :=
  match config with
  | JObject props => own_property "domain" props
  | _ => JUndefined
  end.

Definition nonempty_string (v : JsValue) : bool :=
  match v with
  | JString s => negb (String.eqb s "")
  | _ => false
  end.

(** [text] of the first content item of a payload. *)
Definition payload_text (payload : JsValue) : option string :=
  match payload with
  | JObject props =>
      match own_property "content" props with
      | JArray (JObject item :: _) =>
          match own_property "text" item with
          | JString text => Some text
          | _ => None
          end
      | _ => None
      end
  | _ => None
  end.

(** The specification's reading of a failure's text: the failure's
    [message] field when it has one, otherwise its string form. *)
Definition message_field (e : Thrown) : option string :=
  match e with
  | McpError code message => Some (McpError_message code message)
  | ErrorInstance message => Some message
  | ThrownValue (JObject props) =>
      if has_own_property "message" props
      then match js_String (own_property "message" props) with
           | Return message => Some message
           | Throw _ => None
           end
      else None
  | ThrownValue _ => None
  end.

Definition spec_failure_text (e : Thrown) : string :=
  match message_field e with
  | Some message => message
  | None => match describe e with Return text => text | Throw _ => "" end
  end.

(** Both variables are set and non-empty. *)
Definition env_complete (w : World) : Prop :=
  exists domain token,
    env w !! "TP_DOMAIN" = Some domain /\ domain <> "" /\
    env w !! "TP_TOKEN" = Some token /\ token <> "".

(** The configuration file exists, can be read and parsed, and the
    document has a truthy [credentials.token]. *)
Definition file_usable (w : World) : Prop :=
  exists doc,
    files w !! ServerTs.configPath w = Some (Return doc)
    /\ truthy (config_token doc) = true.

(** Two worlds give [name] the same standing: the same value, or a
    missing or empty one in both. *)
Definition same_setting (w w' : World) (name : string) : Prop :=
  env w !! name = env w' !! name \/ (env_missing w name /\ env_missing w' name).

(** The effects of configuration resolution, as opposed to those of
    construction. *)
Definition is_config_effect (e : Effect) : Prop :=
  match e with
  | FsExistsSync _ | FsReadFileSync _ | ConsoleError _ _ => True
  | _ => False
  end.

(** The path a file-system effect is about. *)
Definition fs_path (e : Effect) : option Path :=
  match e with
  | FsExistsSync p | FsReadFileSync p => Some p
  | _ => None
  end.

Definition is_request (ev : Event) : Prop :=
  match ev with
  | ListToolsRequest | CallToolRequest _ _ => True
  | _ => False
  end.

(** The two kinds of line the running server writes to the diagnostic
    stream. *)
Definition is_diagnostic (e : Effect) : Prop :=
  exists error,
    e = ConsoleError "Cache initialization error:" (Some error)
    \/ e = ConsoleError "[MCP Error]" (Some error).

Definition readiness_notice (timestamp : string) : Effect :=
  ConsoleError
    ("Target Process MCP server running on stdio (started at " +:+ timestamp +:+ ")") None.

(** What the constructor does, in order, once it holds a configuration. *)
Definition construction_effects (config : JsValue) : list Effect :=
  [NewTPService config;
   NewTool SearchTool; NewTool GetEntityTool; NewTool CreateEntityTool;
   NewTool UpdateEntityTool; NewTool InspectObjectTool;
   NewServer [("search_entities", true); ("get_entity", true); ("create_entity", true);
              ("update_entity", true); ("inspect_object", true)];
   SetRequestHandler ListToolsRequestSchema;
   SetRequestHandler CallToolRequestSchema;
   SetOnError;
   ProcessOn "SIGINT";
   CallInitializeCache].

(** The answer of the discovery handler. *)
Definition tool_list {Service : Type} `{!Collaborators Service} : JsValue :=
  JObject [("tools", JArray (map getDefinition all_tools))].

Definition run_of {Service : Type} `{!Collaborators Service} (v : Variant)
  : Completion unit -> string -> Exec (Server Service) unit :=
  match v with
  | FileFallback => ServerTs.run
  | EnvironmentOnly => Part000.run
  end.

(** The state a server is in after its warm-up failed with [e]. *)
Definition after_failed_warmup {Service : Type} (s : Server Service) (sv : Service)
    (e : Thrown) : Server Service :=
  {| service := sv;
     console := console s ++ [ConsoleError "Cache initialization error:" (Some e)];
     warming := false;
     exit_code := exit_code s |}.

(** ** Test doubles

    A backend handle that counts the calls made through it, whose
    warm-up settles as [warm] and whose tools all complete with
    [outcome]. *)
Definition stub (warm : Completion unit) (outcome : Completion JsValue)
  : Collaborators nat := {|
  TPService_new := fun _ => 0%nat;
  initializeEntityTypeCache := fun calls => (S calls, warm);
  execute := fun _ _ calls => (S calls, outcome);
  getDefinition := fun tool => JObject [("name", JString (tool_name tool))];
|}.

Definition fresh_server : Server nat :=
  {| service := 0%nat; console := []; warming := true; exit_code := None |}.

(** A deployment without environment variables and without a
    configuration file. *)
Definition bare_world : World :=
  {| env := ∅; module_dir := ["opt"; "tp-mcp"; "build"]; cwd := ["home"; "user"]; files := ∅ |}.

Definition with_env (domain token : string) (w : World) : World :=
  {| env := <["TP_TOKEN" := token]> (<["TP_DOMAIN" := domain]> (env w));
     module_dir := module_dir w; cwd := cwd w; files := files w |}.

Definition with_file (p : Path) (content : Outcome string JsValue) (w : World) : World :=
  {| env := env w; module_dir := module_dir w; cwd := cwd w;
     files := <[p := content]> (files w) |}.

(** Tools whose backend call fails with an ordinary [Error]. *)
Definition failing_tools : Collaborators nat :=
  stub (Return tt) (Throw (ErrorInstance "socket hang up")).

(** Tools that answer with a fixed record, behind a backend whose
    warm-up rejects. *)
Definition cold_tools : Collaborators nat :=
  stub (Throw (ErrorInstance "connect ECONNREFUSED"))
       (Return (JObject [("Id", JNumber 42); ("Name", JString "Sprint demo")])).

(** [throw { message: 'boom' }]. *)
Definition boom_object : Thrown :=
  ThrownValue (JObject [("message", JString "boom")]).

(** [throw { toString: 'x' }]. *)
Definition unprintable_object : Thrown :=
  ThrownValue (JObject [("toString", JString "x")]).

(** [throw { message: 'Entity not found', status: 404 }]. *)
Definition not_found_object : Thrown :=
  ThrownValue (JObject [("message", JString "Entity not found"); ("status", JNumber 404)]).

Definition env_world : World :=
  with_env "acme.tpondemand.com" "secret-token" bare_world.

(** A deployment whose configuration file holds
    [{ credentials: { token: 'abc' } }] and no [domain]. *)
Definition domainless_config : JsValue :=
  JObject [("credentials", JObject [("token", JString "abc")])].

Definition domainless_world : World :=
  with_file (ServerTs.configPath bare_world) (Return domainless_config) bare_world.

(** A deployment whose configuration file holds
    [{ domain: 'acme.tpondemand.com' }] and no credentials. *)
Definition tokenless_world : World :=
  with_file (ServerTs.configPath bare_world)
    (Return (JObject [("domain", JString "acme.tpondemand.com")])) bare_world.

(** A deployment whose configuration file holds the document [null]. *)
Definition null_world : World :=
  with_file (ServerTs.configPath bare_world) (Return JNull) bare_world.

(** A deployment whose configuration file is cut short, so that
    [JSON.parse] throws a [SyntaxError]. *)
Definition malformed_world : World :=
  with_file (ServerTs.configPath bare_world)
    (Throw "Unexpected end of JSON input") bare_world.

(** A deployment with [TP_DOMAIN] set, [TP_TOKEN] unset, and a complete
    configuration file that names another domain and carries an extra
    field. *)
Definition file_config : JsValue :=
  JObject [("domain", JString "files.tpondemand.com");
           ("credentials", JObject [("token", JString "file-token")]);
           ("retry", JNumber 3)].

Definition partial_world : World :=
  {| env := <["TP_DOMAIN" := "acme.tpondemand.com"]> ∅;
     module_dir := ["opt"; "tp-mcp"; "build"];
     cwd := ["tmp"];
     files := <[ServerTs.configPath bare_world := Return file_config]> ∅ |}.

(** The same deployment seen from another working directory, with
    [TP_TOKEN] set to the empty string and an unrelated variable set. *)
Definition partial_world_elsewhere : World :=
  {| env := <["HOME" := "/root"]> (<["TP_TOKEN" := ""]> (<["TP_DOMAIN" := "acme.tpondemand.com"]> ∅));
     module_dir := ["opt"; "tp-mcp"; "build"];
     cwd := ["var"; "run"];
     files := <[ServerTs.configPath bare_world := Return file_config]> ∅ |}.

(** * Properties *)

(** ** Strings *)

Lemma prefix_append (p s : string) : String.prefix p (p +:+ s) = true.
Proof.
  induction p as [|c p IH]; simpl.
  - by destruct s.
  - destruct (ascii_dec c c); [exact IH | congruence].
Qed.

Lemma prefix_refl (s : string) : String.prefix s s = true.
Proof.
  induction s as [|c s IH]; simpl; [reflexivity|].
  destruct (ascii_dec c c); [exact IH | congruence].
Qed.

Lemma prefix_contains (needle hay : string) :
  String.prefix needle hay = true -> contains needle hay = true.
Proof.
  destruct hay; simpl; intros ->; reflexivity.
Qed.

Lemma contains_append_r (p s : string) : contains s (p +:+ s) = true.
Proof.
  induction p as [|c p IH]; simpl.
  - apply prefix_contains, prefix_refl.
  - rewrite IH. apply orb_true_r.
Qed.

Lemma append_inj_r (p a b : string) : p +:+ a = p +:+ b -> a = b.
Proof.
  induction p; simpl; intros H; [exact H | injection H; auto].
Qed.

(** ** The monad *)

Lemma try_catch_throw {St A} (body : Exec St A) handler (st st' : St) e :
  body st = (st', Throw e) -> try_catch body handler st = handler e st'.
Proof. unfold try_catch. intros ->. reflexivity. Qed.

Lemma try_catch_return {St A} (body : Exec St A) handler (st st' : St) a :
  body st = (st', Return a) -> try_catch body handler st = (st', Return a).
Proof. unfold try_catch. intros ->. reflexivity. Qed.

(** ** Dispatch and error normalisation *)

Section Dispatch.
Context {Service : Type} `{!Collaborators Service}.
Implicit Types (s : Server Service) (e : Thrown) (v : Variant).

(** Both variants wrap their [switch] in the same [try]/[catch]. *)
Lemma handler_unfold v name arguments :
  CallToolRequestHandler_of v name arguments =
  try_catch (dispatch_of v name arguments)
    (fun error =>
       if instanceof_McpError error then throw error
       else
         let! description := lift (describe error) in
         ret (error_payload ("Target Process API error: " +:+ description))).
Proof. destruct v; reflexivity. Qed.

Lemma dispatch_registered v tool arguments :
  dispatch_of v (tool_name tool) arguments = on_service (execute tool arguments).
Proof. destruct v, tool; reflexivity. Qed.

Lemma dispatch_unregistered v name arguments :
  name ∉ registered_names ->
  dispatch_of v name arguments =
  throw (McpError ErrorCode.MethodNotFound ("Unknown tool: " +:+ name)).
Proof.
  intros Hname.
  assert (Hne : forall n, n ∈ registered_names -> String.eqb name n = false).
  { intros n Hn. apply String.eqb_neq. intros ->. contradiction. }
  unfold registered_names in Hne.
  destruct v; unfold dispatch_of, ServerTs.dispatch, Part000.dispatch;
    rewrite !Hne by set_solver; reflexivity.
Qed.

(** C1 (as amended): when the tool execution of a dispatch throws, an
    [McpError] is re-raised unchanged; any other [Error] instance
    resolves to the error payload whose text is built from its
    [message]; a thrown value that is not an [Error] instance and has
    a string form resolves to the error payload whose text is built
    from [String(value)], whether or not the value has a [message]
    property.  Where [String(value)] itself throws, that [TypeError]
    leaves the [catch] clause and the handler rejects with it.  In
    every case the handler either rejects or resolves, never both: it
    rejects exactly when the failure is an [McpError] or has no string
    form. *)
Theorem dispatch_failure_has_one_path v name arguments s s' e :
  dispatch_of v name arguments s = (s', Throw e) ->
  CallToolRequestHandler_of v name arguments s =
    (s', match e with
         | McpError _ _ => Throw e
         | ErrorInstance message =>
             Return (error_payload ("Target Process API error: " +:+ message))
         | ThrownValue value =>
             match js_String value with
             | Return text =>
                 Return (error_payload ("Target Process API error: " +:+ text))
             | Throw conversion => Throw conversion
             end
         end)
  /\ (instanceof_McpError e = true ->
      snd (CallToolRequestHandler_of v name arguments s) = Throw e)
  /\ ((exists e', snd (CallToolRequestHandler_of v name arguments s) = Throw e') <->
      instanceof_McpError e = true \/ exists conversion, describe e = Throw conversion)
  /\ ((exists r, snd (CallToolRequestHandler_of v name arguments s) = Return r) <->
      instanceof_McpError e = false /\ exists text, describe e = Return text).
Proof.
  intros Hthrow.
  rewrite handler_unfold, (try_catch_throw _ _ _ _ _ Hthrow).
  destruct e as [code message|message|value]; cbn [instanceof_McpError describe].
  - cbn. split; [reflexivity|]. split; [reflexivity|]. split; split.
    + by left.
    + eauto.
    + by intros [r [=]].
    + by intros [[=] _].
  - cbn. split; [reflexivity|]. split; [intros [=]|]. split; split.
    + by intros [e' [=]].
    + by intros [[=] | [conversion [=]]].
    + eauto.
    + eauto.
  - unfold bind, lift, ret. destruct (js_String value) as [text|conversion]; cbn.
    + split; [reflexivity|]. split; [intros [=]|]. split; split.
      * by intros [e' [=]].
      * by intros [[=] | [conversion [=]]].
      * eauto.
      * eauto.
    + split; [reflexivity|]. split; [intros [=]|]. split; split.
      * eauto.
      * eauto.
      * by intros [r [=]].
      * by intros [_ [text [=]]].
Qed.

(** C2: a request whose name is none of the five registered
    identifiers is rejected with [McpError(MethodNotFound)] whose
    message carries the name; the shared handle is untouched and the
    outcome is not an error payload. *)
Theorem unregistered_name_is_method_not_found v name arguments s :
  name ∉ registered_names ->
  CallToolRequestHandler_of v name arguments s =
    (s, Throw (McpError ErrorCode.MethodNotFound ("Unknown tool: " +:+ name)))
  /\ forall text,
       snd (CallToolRequestHandler_of v name arguments s) <> Return (error_payload text).
Proof.
  intros Hname.
  assert (Hrun : CallToolRequestHandler_of v name arguments s =
            (s, Throw (McpError ErrorCode.MethodNotFound ("Unknown tool: " +:+ name)))).
  { rewrite handler_unfold.
    rewrite (try_catch_throw _ _ s s
               (McpError ErrorCode.MethodNotFound ("Unknown tool: " +:+ name)));
      [reflexivity|].
    by rewrite dispatch_unregistered. }
  split; [exact Hrun|]. intros text. rewrite Hrun. discriminate.
Qed.

(** C9 (as amended): for a failure that is not an [McpError] and that
    has a description (the [message] of an [Error] instance, or
    [String(value)] for a thrown value that is not an [Error] instance
    and whose conversion to a string does not throw), the handler
    resolves to a payload flagged as an error whose text is exactly the
    prefix ['Target Process API error: '] followed by that
    description; the description thus always appears in the text,
    behind the prefix. *)
Theorem error_text_is_prefixed_description v name arguments s s' e description :
  dispatch_of v name arguments s = (s', Throw e) ->
  instanceof_McpError e = false ->
  describe e = Return description ->
  (forall message, e = ErrorInstance message -> description = message)
  /\ (forall value, e = ThrownValue value -> js_String value = Return description)
  /\ exists payload,
      CallToolRequestHandler_of v name arguments s = (s', Return payload)
      /\ payload_text payload = Some ("Target Process API error: " +:+ description)
      /\ own_property "isError" (match payload with JObject props => props | _ => [] end)
         = JBool true
      /\ String.prefix "Target Process API error: "
           ("Target Process API error: " +:+ description) = true
      /\ contains description ("Target Process API error: " +:+ description) = true.
Proof.
  intros Hthrow Hcode Hdescribe.
  split; [intros message ->; cbn in Hdescribe; congruence|].
  split; [intros value ->; exact Hdescribe|].
  exists (error_payload ("Target Process API error: " +:+ description)).
  split.
  - rewrite handler_unfold, (try_catch_throw _ _ _ _ _ Hthrow), Hcode.
    unfold bind, lift, ret. by rewrite Hdescribe.
  - split; [reflexivity|]. split; [reflexivity|].
    split; [apply prefix_append | apply contains_append_r].
Qed.
End Dispatch.

(** ** Configuration resolution *)

Lemma process_env_present w name value :
  env w !! name = Some value -> value <> "" ->
  process_env w name = JString value /\ truthy (process_env w name) = true.
Proof.
  intros Hget Hne. unfold process_env. rewrite Hget. split; [reflexivity|].
  simpl. apply negb_true_iff, String.eqb_neq, Hne.
Qed.

Lemma process_env_missing w name :
  env_missing w name -> truthy (process_env w name) = false.
Proof. unfold process_env. intros [-> | ->]; reflexivity. Qed.

Lemma environment_gate_closed w :
  env_missing w "TP_DOMAIN" \/ env_missing w "TP_TOKEN" ->
  truthy (process_env w "TP_DOMAIN") && truthy (process_env w "TP_TOKEN") = false.
Proof.
  intros [H | H]; rewrite (process_env_missing _ _ H);
    [reflexivity | apply andb_false_r].
Qed.

(** The path is the sibling [config] directory of the module's own
    directory; the working directory and the environment play no part. *)
Lemma configPath_relative_to_module w :
  ServerTs.configPath w = removelast (module_dir w) ++ ["config"; "targetprocess.json"].
Proof.
  unfold ServerTs.configPath. simpl. by rewrite <- app_assoc.
Qed.

Ltac run_loadConfig :=
  unfold ServerTs.loadConfig, Part000.loadConfig, fs_existsSync, JSON_parse_readFileSync;
  unfold js_get_optional, js_get, bind, try_catch, tell, ret, throw, lift.

Lemma loadConfig_file_absent w t :
  env_missing w "TP_DOMAIN" \/ env_missing w "TP_TOKEN" ->
  files w !! ServerTs.configPath w = None ->
  ServerTs.loadConfig w t =
    (t ++ [FsExistsSync (ServerTs.configPath w);
           ConsoleError ServerTs.no_configuration_message None],
     Throw (McpError ErrorCode.InternalError ServerTs.no_configuration_message)).
Proof.
  intros Henv Hfile. run_loadConfig.
  rewrite (environment_gate_closed _ Henv), Hfile.
  rewrite bool_decide_eq_false_2 by (intros [? [=]]).
  simpl. by rewrite <- app_assoc.
Qed.

Lemma loadConfig_file_unreadable w t message :
  env_missing w "TP_DOMAIN" \/ env_missing w "TP_TOKEN" ->
  files w !! ServerTs.configPath w = Some (Throw message) ->
  ServerTs.loadConfig w t =
    (t ++ [FsExistsSync (ServerTs.configPath w);
           FsReadFileSync (ServerTs.configPath w);
           ConsoleError ("Error parsing config file: " +:+ message) None],
     Throw (McpError ErrorCode.InternalError ("Error parsing config file: " +:+ message))).
Proof.
  intros Henv Hfile. run_loadConfig.
  rewrite (environment_gate_closed _ Henv), Hfile.
  rewrite bool_decide_eq_true_2 by eauto.
  simpl. by rewrite <- !app_assoc.
Qed.

Lemma loadConfig_token_missing w t doc :
  env_missing w "TP_DOMAIN" \/ env_missing w "TP_TOKEN" ->
  files w !! ServerTs.configPath w = Some (Return doc) ->
  doc <> JNull -> doc <> JUndefined ->
  truthy (config_token doc) = false ->
  let message :=
    "Error parsing config file: " +:+
    McpError_message ErrorCode.InternalError ServerTs.token_required_message in
  ServerTs.loadConfig w t =
    (t ++ [FsExistsSync (ServerTs.configPath w);
           FsReadFileSync (ServerTs.configPath w);
           ConsoleError message None],
     Throw (McpError ErrorCode.InternalError message)).
Proof.
  intros Henv Hfile Hnull Hundef Htoken message. subst message. run_loadConfig.
  rewrite (environment_gate_closed _ Henv), Hfile.
  rewrite bool_decide_eq_true_2 by eauto.
  clear Hfile. generalize (ServerTs.configPath w). intros p.
  destruct doc as [| |b|z|str|items|props]; try congruence;
    cbn; rewrite <- ?app_assoc; try reflexivity.
  revert Htoken. unfold config_token.
  destruct (own_property "credentials" props) as [| |b|z|str|items|creds];
    intros Htoken; cbn; rewrite ?Htoken; cbn; rewrite <- ?app_assoc; reflexivity.
Qed.

Lemma loadConfig_file_valid w t doc :
  env_missing w "TP_DOMAIN" \/ env_missing w "TP_TOKEN" ->
  files w !! ServerTs.configPath w = Some (Return doc) ->
  truthy (config_token doc) = true ->
  ServerTs.loadConfig w t =
    (t ++ [FsExistsSync (ServerTs.configPath w); FsReadFileSync (ServerTs.configPath w)],
     Return doc).
Proof.
  intros Henv Hfile Htoken. run_loadConfig.
  rewrite (environment_gate_closed _ Henv), Hfile.
  rewrite bool_decide_eq_true_2 by eauto.
  clear Hfile. generalize (ServerTs.configPath w). intros p.
  destruct doc as [| |b|z|str|items|props]; try discriminate Htoken.
  revert Htoken. unfold config_token. cbn.
  destruct (own_property "credentials" props) as [| |b|z|str|items|creds];
    intros Htoken; try discriminate Htoken.
  rewrite Htoken. cbn. by rewrite <- !app_assoc.
Qed.

Lemma loadConfig_from_environment v w t domain token :
  env w !! "TP_DOMAIN" = Some domain -> domain <> "" ->
  env w !! "TP_TOKEN" = Some token -> token <> "" ->
  loadConfig_of v w t =
    (t, Return (JObject [("domain", JString domain);
                         ("credentials", JObject [("token", JString token)])])).
Proof.
  intros Hd Hdne Ht Htne.
  destruct (process_env_present _ _ _ Hd Hdne) as [Ed Td].
  destruct (process_env_present _ _ _ Ht Htne) as [Et Tt].
  destruct v; unfold loadConfig_of; run_loadConfig; rewrite Td, Tt, Ed, Et; reflexivity.
Qed.

Lemma loadConfig_null_document w t doc :
  env_missing w "TP_DOMAIN" \/ env_missing w "TP_TOKEN" ->
  files w !! ServerTs.configPath w = Some (Return doc) ->
  doc = JNull \/ doc = JUndefined ->
  exists message,
    ServerTs.loadConfig w t =
      (t ++ [FsExistsSync (ServerTs.configPath w);
             FsReadFileSync (ServerTs.configPath w);
             ConsoleError message None],
       Throw (McpError ErrorCode.InternalError message)).
Proof.
  intros Henv Hfile Hdoc. run_loadConfig.
  rewrite (environment_gate_closed _ Henv), Hfile.
  rewrite bool_decide_eq_true_2 by eauto.
  clear Hfile. generalize (ServerTs.configPath w). intros p.
  destruct Hdoc as [-> | ->]; eexists; cbn; rewrite <- !app_assoc; reflexivity.
Qed.

Lemma loadConfig_environment_only_missing w t :
  env_missing w "TP_DOMAIN" \/ env_missing w "TP_TOKEN" ->
  Part000.loadConfig w t =
    (t, Throw (McpError ErrorCode.InternalError Part000.environment_required_message)).
Proof.
  intros Henv. run_loadConfig.
  destruct Henv as [H | H]; rewrite (process_env_missing _ _ H); cbn [negb orb];
    [reflexivity | by rewrite orb_true_r].
Qed.

(** Once the environment does not give both variables, [src/server.ts]
    first asks the file system about the configuration path. *)
Lemma loadConfig_falls_back_to_file w t :
  env_missing w "TP_DOMAIN" \/ env_missing w "TP_TOKEN" ->
  exists rest,
    fst (ServerTs.loadConfig w t) = t ++ FsExistsSync (ServerTs.configPath w) :: rest.
Proof.
  intros Henv.
  destruct (files w !! ServerTs.configPath w) as [[doc|e]|] eqn:Hfile.
  - destruct (truthy (config_token doc)) eqn:Htoken.
    + rewrite (loadConfig_file_valid _ _ _ Henv Hfile Htoken). by eexists.
    + assert (Hdoc : (doc = JNull \/ doc = JUndefined) \/ (doc <> JNull /\ doc <> JUndefined))
        by (destruct doc; auto; right; split; discriminate).
      destruct Hdoc as [Hdoc | [Hnull Hundef]].
      * destruct (loadConfig_null_document _ t _ Henv Hfile Hdoc) as [m ->]. by eexists.
      * rewrite (loadConfig_token_missing _ _ _ Henv Hfile Hnull Hundef Htoken). by eexists.
  - rewrite (loadConfig_file_unreadable _ _ _ Henv Hfile). by eexists.
  - rewrite (loadConfig_file_absent _ _ Henv Hfile). by eexists.
Qed.

(** C3 (as amended): when [TP_DOMAIN] or [TP_TOKEN] is missing or
    empty, the [loadConfig] of [src/server.ts] turns to the file system:
    its first action is to test the path
    [<parent of the module's directory>/config/targetprocess.json], and
    if no file is there it logs and throws an [McpError(InternalError)]
    whose message names both remedies, the two environment variables and
    the configuration file.  The [loadConfig] of the environment-only
    variant has no file fallback: in the same situation it throws at
    once, touching no file, with a message about the environment
    variables. *)
Theorem missing_environment_resolution w t :
  env_missing w "TP_DOMAIN" \/ env_missing w "TP_TOKEN" ->
  (exists rest,
     fst (ServerTs.loadConfig w t) =
       t ++ FsExistsSync (removelast (module_dir w) ++ ["config"; "targetprocess.json"]) :: rest)
  /\ (files w !! ServerTs.configPath w = None ->
      ServerTs.loadConfig w t =
        (t ++ [FsExistsSync (ServerTs.configPath w);
               ConsoleError ServerTs.no_configuration_message None],
         Throw (McpError ErrorCode.InternalError ServerTs.no_configuration_message)))
  /\ contains "TP_DOMAIN" ServerTs.no_configuration_message = true
  /\ contains "TP_TOKEN" ServerTs.no_configuration_message = true
  /\ contains "config/targetprocess.json" ServerTs.no_configuration_message = true
  /\ Part000.loadConfig w t =
       (t, Throw (McpError ErrorCode.InternalError Part000.environment_required_message)).
Proof.
  intros Henv. split; [|split; [|split; [|split; [|split]]]].
  - rewrite <- configPath_relative_to_module. by apply loadConfig_falls_back_to_file.
  - intros Hfile. by apply loadConfig_file_absent.
  - reflexivity.
  - reflexivity.
  - reflexivity.
  - by apply loadConfig_environment_only_missing.
Qed.

(** C4: when [TP_DOMAIN] and [TP_TOKEN] are both set and non-empty,
    [loadConfig] of either variant returns
    [{ domain: TP_DOMAIN, credentials: { token: TP_TOKEN } }] and leaves
    the trace as it was: no file-system call, nothing logged. *)
Theorem environment_configuration_verbatim v w t domain token :
  env w !! "TP_DOMAIN" = Some domain -> domain <> "" ->
  env w !! "TP_TOKEN" = Some token -> token <> "" ->
  snd (loadConfig_of v w t) =
    Return (JObject [("domain", JString domain);
                     ("credentials", JObject [("token", JString token)])])
  /\ fst (loadConfig_of v w t) = t
  /\ forall p, FsExistsSync p ∈ fst (loadConfig_of v w t) -> FsExistsSync p ∈ t.
Proof.
  intros Hd Hdne Ht Htne.
  rewrite (loadConfig_from_environment v w t domain token) by assumption.
  simpl. auto.
Qed.

(** C6 (as amended): with the environment incomplete, a configuration
    file that parses to a document other than [null] in which
    [credentials.token] is absent or falsy makes [loadConfig] of
    [src/server.ts] throw an [McpError(InternalError)] whose message
    speaks of the Personal Access Token.  No missing-file failure
    carries that message, and no read or parse failure does either,
    unless the reader's or parser's own message speaks of the Personal
    Access Token. *)
Theorem missing_token_failure_is_distinct w t doc :
  env_missing w "TP_DOMAIN" \/ env_missing w "TP_TOKEN" ->
  files w !! ServerTs.configPath w = Some (Return doc) ->
  doc <> JNull -> doc <> JUndefined ->
  truthy (config_token doc) = false ->
  exists message,
    snd (ServerTs.loadConfig w t) = Throw (McpError ErrorCode.InternalError message)
    /\ contains "Personal Access Token" message = true
    /\ contains ServerTs.token_required_message message = true
    /\ (forall w' t',
          env_missing w' "TP_DOMAIN" \/ env_missing w' "TP_TOKEN" ->
          files w' !! ServerTs.configPath w' = None ->
          snd (ServerTs.loadConfig w' t') <> Throw (McpError ErrorCode.InternalError message))
    /\ (forall w' t' failure,
          env_missing w' "TP_DOMAIN" \/ env_missing w' "TP_TOKEN" ->
          files w' !! ServerTs.configPath w' = Some (Throw failure) ->
          contains "Personal Access Token" failure = false ->
          snd (ServerTs.loadConfig w' t') <> Throw (McpError ErrorCode.InternalError message)).
Proof.
  intros Henv Hfile Hnull Hundef Htoken.
  eexists. split.
  { rewrite (loadConfig_token_missing _ _ _ Henv Hfile Hnull Hundef Htoken). reflexivity. }
  split; [reflexivity|]. split; [reflexivity|]. split.
  - intros w' t' Henv' Hfile'.
    rewrite (loadConfig_file_absent _ _ Henv' Hfile'). discriminate.
  - intros w' t' failure Henv' Hfile' Hsilent.
    rewrite (loadConfig_file_unreadable _ _ _ Henv' Hfile'). simpl snd.
    intros [= Heq]. apply append_inj_r in Heq. rewrite Heq in Hsilent.
    discriminate Hsilent.
Qed.

Lemma process_env_cases w name :
  env_missing w name \/ exists value, env w !! name = Some value /\ value <> "".
Proof.
  unfold env_missing. destruct (env w !! name) as [value|]; [|by left; left].
  destruct (decide (value = "")) as [-> | Hne]; [by left; right | right; eauto].
Qed.

Ltac not_in_list H :=
  repeat (apply elem_of_cons in H as [H | H]; [discriminate H|]);
  by apply elem_of_nil in H.

(** Whatever [loadConfig] does, it constructs nothing, and a
    configuration it returns has a truthy token; one built from the
    environment has both fields as non-empty strings. *)
Lemma loadConfig_cases v w t :
  exists delta,
    fst (loadConfig_of v w t) = t ++ delta
    /\ (forall config, NewTPService config ∉ delta)
    /\ match snd (loadConfig_of v w t) with
       | Return config =>
           truthy (config_token config) = true
           /\ (v = EnvironmentOnly
               \/ truthy (process_env w "TP_DOMAIN") && truthy (process_env w "TP_TOKEN") = true ->
               nonempty_string (config_domain config) = true
               /\ nonempty_string (config_token config) = true)
       | Throw _ => True
       end.
Proof.
  destruct (process_env_cases w "TP_DOMAIN") as [Hd | (domain & Hd & Hdne)];
    [|destruct (process_env_cases w "TP_TOKEN") as [Ht | (token & Ht & Htne)]].
  3: { exists []. rewrite (loadConfig_from_environment v w t domain token) by assumption.
       rewrite app_nil_r. split; [reflexivity|]. split; [intros c H; by apply elem_of_nil in H|].
       cbn. apply String.eqb_neq in Hdne, Htne. rewrite Hdne, Htne. auto. }
  all: assert (Henv : env_missing w "TP_DOMAIN" \/ env_missing w "TP_TOKEN") by tauto.
  all: destruct v; unfold loadConfig_of.
  2, 4: exists []; rewrite (loadConfig_environment_only_missing _ _ Henv), app_nil_r;
        (split; [reflexivity|]); split; [intros c H; by apply elem_of_nil in H | exact I].
  all: destruct (files w !! ServerTs.configPath w) as [[doc|e]|] eqn:Hfile.
  all: try (eexists; rewrite (loadConfig_file_unreadable _ _ _ Henv Hfile);
            (split; [reflexivity|]); split; [intros c H; not_in_list H | exact I]).
  all: try (eexists; rewrite (loadConfig_file_absent _ _ Henv Hfile);
            (split; [reflexivity|]); split; [intros c H; not_in_list H | exact I]).
  all: destruct (truthy (config_token doc)) eqn:Htoken.
  all: try (eexists; rewrite (loadConfig_file_valid _ _ _ Henv Hfile Htoken);
            (split; [reflexivity|]); split; [intros c H; not_in_list H|];
            cbn [snd]; split; [exact Htoken|];
            intros [[=] | Hgate]; rewrite (environment_gate_closed _ Henv) in Hgate;
            discriminate Hgate).
  all: assert (Hdoc : (doc = JNull \/ doc = JUndefined) \/ (doc <> JNull /\ doc <> JUndefined))
         by (destruct doc; auto; right; split; discriminate).
  all: destruct Hdoc as [Hdoc | [Hnull Hundef]].
  all: try (destruct (loadConfig_null_document _ t _ Henv Hfile Hdoc) as [m ->];
            eexists; (split; [reflexivity|]); split; [intros c H; not_in_list H | exact I]).
  all: eexists; rewrite (loadConfig_token_missing _ _ _ Henv Hfile Hnull Hundef Htoken);
       (split; [reflexivity|]); split; [intros c H; not_in_list H | exact I].
Qed.

(** ** Construction, discovery and warm-up *)

Section Lifecycle.
Context {Service : Type} `{!Collaborators Service}.
Implicit Types (s : Server Service) (e : Thrown) (v : Variant).

Lemma constructor_run v w t :
  constructor_of v w t =
    match loadConfig_of v w t with
    | (t', Return config) =>
        (t' ++ construction_effects config,
         Return {| service := TPService_new config; console := [];
                   warming := true; exit_code := None |})
    | (t', Throw e) => (t', Throw e)
    end.
Proof.
  destruct v; unfold constructor_of, ServerTs.constructor, Part000.constructor, loadConfig_of;
    unfold bind at 1.
  - destruct (ServerTs.loadConfig w t) as [t' [config|e]]; [|reflexivity].
    unfold ServerTs.constructor_after_config, bind, tell, ret; cbn.
    by rewrite <- !app_assoc.
  - destruct (Part000.loadConfig w t) as [t' [config|e]]; [|reflexivity].
    unfold Part000.constructor_after_config, bind, tell, ret; cbn.
    by rewrite <- !app_assoc.
Qed.

(** C5 (as amended): whenever the constructor creates the backend
    handle, the configuration it passes has a truthy
    [credentials.token]; a configuration taken from the environment
    (always so in the environment-only variant) has a non-empty
    string as [domain] and as [credentials.token].  On the file path
    of [src/server.ts] the [domain] is not examined.  When
    [loadConfig] throws, the constructor throws the same error and no
    handle is created. *)
Theorem service_handle_configuration v w trace result :
  constructor_of v w [] = (trace, result) ->
  (forall config, NewTPService config ∈ trace ->
     truthy (config_token config) = true
     /\ (v = EnvironmentOnly
         \/ truthy (process_env w "TP_DOMAIN") && truthy (process_env w "TP_TOKEN") = true ->
         nonempty_string (config_domain config) = true
         /\ nonempty_string (config_token config) = true))
  /\ (forall e, snd (loadConfig_of v w []) = Throw e ->
        result = Throw e /\ forall config, NewTPService config ∉ trace).
Proof.
  rewrite constructor_run.
  destruct (loadConfig_cases v w []) as (delta & Htrace & Hnone & Hresult).
  destruct (loadConfig_of v w []) as [t' [config|e]]; cbn [fst snd] in *;
    subst t'; rewrite app_nil_l; intros [= <- <-].
  - split; [|intros e [=]].
    intros config' Hin. apply elem_of_app in Hin as [Hin | Hin].
    + by apply Hnone in Hin.
    + unfold construction_effects in Hin.
      apply elem_of_cons in Hin as [[= ->] | Hin]; [exact Hresult|].
      not_in_list Hin.
  - split.
    + intros config Hin. by apply Hnone in Hin.
    + intros e' [= <-]. split; [reflexivity | exact Hnone].
Qed.

Lemma ListToolsRequestHandler_run v s :
  ListToolsRequestHandler_of v s = (s, Return tool_list).
Proof. destruct v; reflexivity. Qed.

(** C7: the discovery handler answers every call, in every state of
    the server and after any sequence of events, with the same list:
    the descriptors of the five tool classes in the order search, get,
    create, update, inspect.  It leaves the state as it was. *)
Theorem discovery_is_fixed v s s' events :
  ListToolsRequestHandler_of v s =
    (s, Return (JObject [("tools", JArray [getDefinition SearchTool;
                                           getDefinition GetEntityTool;
                                           getDefinition CreateEntityTool;
                                           getDefinition UpdateEntityTool;
                                           getDefinition InspectObjectTool])]))
  /\ length (map getDefinition all_tools) = 5%nat
  /\ snd (ListToolsRequestHandler_of v s) = snd (ListToolsRequestHandler_of v s')
  /\ snd (ListToolsRequestHandler_of v (fst (serve_of v s events))) = Return tool_list
  /\ step_of v s ListToolsRequest =
       match exit_code s with
       | None => (s, Some (Return tool_list))
       | Some _ => (s, None)
       end.
Proof.
  rewrite !ListToolsRequestHandler_run.
  repeat split.
  destruct v; unfold step_of, ServerTs.step, Part000.step; by destruct (exit_code s).
Qed.

Lemma on_service_frame {A} (call : Service -> Service * Completion A) s s' r :
  on_service call s = (s', r) ->
  call (service s) = (service s', r)
  /\ console s' = console s /\ warming s' = warming s /\ exit_code s' = exit_code s.
Proof.
  unfold on_service. destruct (call (service s)) as [sv r'].
  intros [= <- <-]. auto.
Qed.

Lemma dispatch_frame v name arguments s s' r :
  dispatch_of v name arguments s = (s', r) ->
  console s' = console s /\ warming s' = warming s /\ exit_code s' = exit_code s.
Proof.
  destruct v; unfold dispatch_of, ServerTs.dispatch, Part000.dispatch, throw;
    repeat case_match;
    first [ intros [= <- <-]; by auto
          | intros Hcall; by apply on_service_frame in Hcall as (_ & ? & ? & ?) ].
Qed.

Lemma handler_frame v name arguments s s' r :
  CallToolRequestHandler_of v name arguments s = (s', r) ->
  console s' = console s /\ warming s' = warming s /\ exit_code s' = exit_code s.
Proof.
  rewrite handler_unfold. unfold try_catch.
  destruct (dispatch_of v name arguments s) as [s1 [a|e]] eqn:Hd;
    apply dispatch_frame in Hd.
  - by intros [= <- <-].
  - destruct (instanceof_McpError e); [intros [= <- <-]; exact Hd|].
    unfold bind, lift, ret. destruct (describe e); intros [= <- <-]; exact Hd.
Qed.

Lemma handler_returns_tool_result v tool arguments s sv r :
  execute tool arguments (service s) = (sv, Return r) ->
  snd (CallToolRequestHandler_of v (tool_name tool) arguments s) = Return r.
Proof.
  intros Hexec. rewrite handler_unfold. unfold try_catch.
  rewrite dispatch_registered. unfold on_service. rewrite Hexec. reflexivity.
Qed.

(** [initializeCache] catches whatever the collaborator throws. *)
Lemma initializeCache_run v s :
  initializeCache_of v s =
    match initializeEntityTypeCache (service s) with
    | (sv, Return _) =>
        ({| service := sv; console := console s; warming := warming s;
            exit_code := exit_code s |}, Return tt)
    | (sv, Throw e) =>
        ({| service := sv;
            console := console s ++ [ConsoleError "Cache initialization error:" (Some e)];
            warming := warming s; exit_code := exit_code s |}, Return tt)
    end.
Proof.
  destruct v; unfold initializeCache_of, ServerTs.initializeCache, Part000.initializeCache;
    unfold try_catch, on_service, console_error;
    destruct (initializeEntityTypeCache (service s)) as [sv [[]|e]]; reflexivity.
Qed.

Lemma step_unfold v s ev :
  step_of v s ev =
    match exit_code s with
    | Some _ => (s, None)
    | None =>
        match ev with
        | ListToolsRequest =>
            let (s', r) := ListToolsRequestHandler_of v s in (s', Some r)
        | CallToolRequest name arguments =>
            let (s', r) := CallToolRequestHandler_of v name arguments s in (s', Some r)
        | WarmupSettles =>
            if warming s then
              match initializeCache_of v s with
              | (s', Return _) => (set_warming false s', None)
              | (s', Throw _) => (set_exit_code 1 (set_warming false s'), None)
              end
            else (s, None)
        | ProtocolError e =>
            let (s', _) := console_error "[MCP Error]" (Some e) s in (s', None)
        | Sigint => (set_exit_code 0 s, None)
        end
    end.
Proof. destruct v; reflexivity. Qed.

Lemma serve_unfold v s ev events :
  serve_of v s (ev :: events) =
    let (s', r) := step_of v s ev in
    let (s'', rs) := serve_of v s' events in
    (s'', r :: rs).
Proof. destruct v; reflexivity. Qed.

Lemma step_keeps_running v s ev :
  exit_code s = None -> ev <> Sigint -> exit_code (fst (step_of v s ev)) = None.
Proof.
  intros Hrun Hev. rewrite step_unfold, Hrun.
  destruct ev as [|name arguments| |e|]; try congruence.
  - by rewrite ListToolsRequestHandler_run.
  - destruct (CallToolRequestHandler_of v name arguments s) as [s' r] eqn:Hh.
    apply handler_frame in Hh as (_ & _ & Hexit). cbn [fst]. by rewrite Hexit.
  - destruct (warming s); [|exact Hrun].
    rewrite initializeCache_run.
    by destruct (initializeEntityTypeCache (service s)) as [sv [[]|e]].
  - exact Hrun.
Qed.

Lemma serve_keeps_running v events :
  forall s, exit_code s = None -> Sigint ∉ events ->
            exit_code (fst (serve_of v s events)) = None.
Proof.
  induction events as [|ev events IH]; intros s Hrun Hsig.
  - by destruct v.
  - rewrite serve_unfold.
    apply not_elem_of_cons in Hsig as [Hev Hsig].
    pose proof (step_keeps_running v s ev Hrun (not_eq_sym Hev)) as Hstep.
    destruct (step_of v s ev) as [s1 r1]. cbn [fst] in Hstep.
    specialize (IH s1 Hstep Hsig).
    destruct (serve_of v s1 events) as [s2 rs]. exact IH.
Qed.

(** C8: when the collaborator's warm-up rejects, [initializeCache]
    still resolves; the only trace is one line on the diagnostic
    stream; no caller receives anything; the process keeps running
    (and keeps running through any later events short of [SIGINT]);
    afterwards discovery answers with the five descriptors and a
    dispatch to a registered tool whose [execute] returns a result
    resolves with that result. *)
Theorem warmup_failure_is_only_logged v s sv e :
  exit_code s = None -> warming s = true ->
  initializeEntityTypeCache (service s) = (sv, Throw e) ->
  (exists s', initializeCache_of v s = (s', Return tt))
  /\ step_of v s WarmupSettles = (after_failed_warmup s sv e, None)
  /\ console (after_failed_warmup s sv e) =
       console s ++ [ConsoleError "Cache initialization error:" (Some e)]
  /\ exit_code (after_failed_warmup s sv e) = None
  /\ step_of v (after_failed_warmup s sv e) ListToolsRequest =
       (after_failed_warmup s sv e, Some (Return tool_list))
  /\ (forall name arguments,
        step_of v (after_failed_warmup s sv e) (CallToolRequest name arguments) =
          let (s2, r) :=
            CallToolRequestHandler_of v name arguments (after_failed_warmup s sv e) in
          (s2, Some r))
  /\ (forall tool arguments sv' r,
        execute tool arguments sv = (sv', Return r) ->
        snd (step_of v (after_failed_warmup s sv e)
               (CallToolRequest (tool_name tool) arguments)) = Some (Return r))
  /\ (forall events, Sigint ∉ events ->
        exit_code (fst (serve_of v (after_failed_warmup s sv e) events)) = None).
Proof.
  intros Hrun Hwarm Hinit.
  assert (Halive : exit_code (after_failed_warmup s sv e) = None) by exact Hrun.
  split; [|split; [|split; [|split; [|split; [|split; [|split]]]]]].
  - rewrite initializeCache_run, Hinit. eauto.
  - rewrite step_unfold, Hrun, Hwarm, initializeCache_run, Hinit. reflexivity.
  - reflexivity.
  - exact Halive.
  - by rewrite step_unfold, Halive, ListToolsRequestHandler_run.
  - intros name arguments. by rewrite step_unfold, Halive.
  - intros tool arguments sv' r Hexec. rewrite step_unfold, Halive.
    pose proof (handler_returns_tool_result v tool arguments
                  (after_failed_warmup s sv e) sv' r Hexec) as Hres.
    destruct (CallToolRequestHandler_of v (tool_name tool) arguments
                (after_failed_warmup s sv e)) as [s2 r2].
    cbn [snd] in *. by rewrite Hres.
  - intros events Hsig. by apply serve_keeps_running.
Qed.

End Lifecycle.

(** ** The statements at concrete inputs *)

Lemma dispatch_failure_has_one_path_witness :
  @dispatch_of nat failing_tools FileFallback "get_entity" (JObject [("id", JNumber 42)])
    fresh_server
  = ({| service := 1%nat; console := []; warming := true; exit_code := None |},
     Throw (ErrorInstance "socket hang up"))
  /\ @CallToolRequestHandler_of nat failing_tools FileFallback "get_entity"
       (JObject [("id", JNumber 42)]) fresh_server
     = ({| service := 1%nat; console := []; warming := true; exit_code := None |},
        Return (error_payload "Target Process API error: socket hang up")).
Proof.
  split; [reflexivity|].
  exact (proj1 (@dispatch_failure_has_one_path nat failing_tools FileFallback "get_entity"
                  (JObject [("id", JNumber 42)]) fresh_server _
                  (ErrorInstance "socket hang up") eq_refl)).
Defined.

(** A thrown plain object that has a [message] property is not an
    [Error] instance: the payload's text is built from its string form
    and the message does not occur in it. *)
Lemma plain_object_message_is_ignored :
  message_field boom_object = Some "boom"
  /\ instanceof_McpError boom_object = false
  /\ instanceof_Error boom_object = false
  /\ snd (@dispatch_of nat (stub (Return tt) (Throw boom_object)) FileFallback
            "get_entity" JUndefined fresh_server) = Throw boom_object
  /\ ~ (exists text,
         snd (@CallToolRequestHandler_of nat (stub (Return tt) (Throw boom_object))
                FileFallback "get_entity" JUndefined fresh_server)
         = Return (error_payload text)
         /\ contains (spec_failure_text boom_object) text = true).
Proof.
  split; [reflexivity|]. split; [reflexivity|]. split; [reflexivity|].
  split; [reflexivity|].
  intros (text & Hrun & Hin). cbn in Hrun. injection Hrun as <-.
  vm_compute in Hin. discriminate Hin.
Qed.

Lemma unregistered_name_is_method_not_found_witness :
  ("delete_entity" ∉ registered_names)
  /\ @CallToolRequestHandler_of nat failing_tools EnvironmentOnly "delete_entity" JUndefined
       fresh_server
     = (fresh_server, Throw (McpError (-32601) "Unknown tool: delete_entity")).
Proof.
  assert (Hname : "delete_entity" ∉ registered_names) by (intros H; not_in_list H).
  split; [exact Hname|].
  exact (proj1 (@unregistered_name_is_method_not_found nat failing_tools EnvironmentOnly
                  "delete_entity" JUndefined fresh_server Hname)).
Defined.

Lemma error_text_is_prefixed_description_witness :
  exists payload,
    @CallToolRequestHandler_of nat failing_tools EnvironmentOnly "update_entity" JUndefined
      fresh_server
    = ({| service := 1%nat; console := []; warming := true; exit_code := None |},
       Return payload)
    /\ payload_text payload = Some "Target Process API error: socket hang up".
Proof.
  destruct (@error_text_is_prefixed_description nat failing_tools EnvironmentOnly
              "update_entity" JUndefined fresh_server _ (ErrorInstance "socket hang up")
              "socket hang up" eq_refl eq_refl eq_refl)
    as (_ & _ & payload & Hrun & Htext & _).
  exists payload. split; [exact Hrun | exact Htext].
Defined.

(** The text of the payload for a thrown plain object with a [message]
    property is the prefix followed by [[object Object]], not the prefix
    followed by the message. *)
Lemma error_text_of_plain_object_is_string_form :
  spec_failure_text not_found_object = "Entity not found"
  /\ instanceof_McpError not_found_object = false
  /\ snd (@CallToolRequestHandler_of nat (stub (Return tt) (Throw not_found_object))
            EnvironmentOnly "update_entity" JUndefined fresh_server)
     = Return (error_payload "Target Process API error: [object Object]")
  /\ snd (@CallToolRequestHandler_of nat (stub (Return tt) (Throw not_found_object))
            EnvironmentOnly "update_entity" JUndefined fresh_server)
     <> Return (error_payload
                  ("Target Process API error: " +:+ spec_failure_text not_found_object))
  /\ contains "Entity not found" "Target Process API error: [object Object]" = false.
Proof.
  split; [reflexivity|]. split; [reflexivity|]. split; [reflexivity|].
  split; [|reflexivity]. cbn. discriminate.
Qed.

(** A thrown object whose own [toString] is not a function has no
    string form: the conversion throws inside the [catch] clause and
    the handler rejects with that [TypeError]. *)
Lemma failure_without_string_form_rejects :
  describe unprintable_object =
    Throw (ErrorInstance "Cannot convert object to primitive value")
  /\ @CallToolRequestHandler_of nat (stub (Return tt) (Throw unprintable_object))
       FileFallback "get_entity" JUndefined fresh_server
     = ({| service := 1%nat; console := []; warming := true; exit_code := None |},
        Throw (ErrorInstance "Cannot convert object to primitive value")).
Proof. split; reflexivity. Qed.

Lemma bare_world_has_no_environment :
  env_missing bare_world "TP_DOMAIN" \/ env_missing bare_world "TP_TOKEN".
Proof. left. left. reflexivity. Defined.

Lemma missing_environment_resolution_witness :
  (env_missing bare_world "TP_DOMAIN" \/ env_missing bare_world "TP_TOKEN")
  /\ files bare_world !! ServerTs.configPath bare_world = None
  /\ ServerTs.loadConfig bare_world [] =
       ([FsExistsSync ["opt"; "tp-mcp"; "config"; "targetprocess.json"];
         ConsoleError ServerTs.no_configuration_message None],
        Throw (McpError (-32603) ServerTs.no_configuration_message)).
Proof.
  split; [exact bare_world_has_no_environment|]. split; [reflexivity|].
  exact (proj1 (proj2 (missing_environment_resolution bare_world []
                         bare_world_has_no_environment)) eq_refl).
Defined.

(** In the environment-only variant [loadConfig] never looks for a
    file: without environment variables it throws at once, having made
    no file-system call, and its message does not mention a
    configuration file. *)
Lemma environment_only_variant_has_no_file_fallback :
  (env_missing bare_world "TP_DOMAIN" \/ env_missing bare_world "TP_TOKEN")
  /\ files bare_world !! ServerTs.configPath bare_world = None
  /\ Part000.loadConfig bare_world [] =
       ([], Throw (McpError (-32603) Part000.environment_required_message))
  /\ ~ (exists p rest, fst (Part000.loadConfig bare_world []) = FsExistsSync p :: rest)
  /\ contains "config/targetprocess.json" Part000.environment_required_message = false.
Proof.
  split; [exact bare_world_has_no_environment|]. split; [reflexivity|].
  split; [reflexivity|]. split; [|reflexivity].
  intros (p & rest & H). discriminate H.
Qed.

Lemma environment_configuration_verbatim_witness :
  env env_world !! "TP_DOMAIN" = Some "acme.tpondemand.com"
  /\ env env_world !! "TP_TOKEN" = Some "secret-token"
  /\ snd (loadConfig_of FileFallback env_world []) =
       Return (JObject [("domain", JString "acme.tpondemand.com");
                        ("credentials", JObject [("token", JString "secret-token")])])
  /\ fst (loadConfig_of FileFallback env_world []) = [].
Proof.
  assert (Hd : env env_world !! "TP_DOMAIN" = Some "acme.tpondemand.com") by reflexivity.
  assert (Ht : env env_world !! "TP_TOKEN" = Some "secret-token") by reflexivity.
  assert (Hdne : "acme.tpondemand.com" <> "") by discriminate.
  assert (Htne : "secret-token" <> "") by discriminate.
  split; [exact Hd|]. split; [exact Ht|].
  destruct (environment_configuration_verbatim FileFallback env_world []
              "acme.tpondemand.com" "secret-token" Hd Hdne Ht Htne) as (Hcfg & Htrace & _).
  split; [exact Hcfg | exact Htrace].
Defined.

Lemma tokenless_world_has_the_file :
  files tokenless_world !! ServerTs.configPath tokenless_world =
    Some (Return (JObject [("domain", JString "acme.tpondemand.com")])).
Proof. reflexivity. Defined.

Lemma missing_token_failure_is_distinct_witness :
  exists message,
    snd (ServerTs.loadConfig tokenless_world []) = Throw (McpError (-32603) message)
    /\ contains "Personal Access Token" message = true
    /\ snd (ServerTs.loadConfig bare_world []) <> Throw (McpError (-32603) message)
    /\ snd (ServerTs.loadConfig malformed_world []) <> Throw (McpError (-32603) message).
Proof.
  destruct (missing_token_failure_is_distinct tokenless_world []
              (JObject [("domain", JString "acme.tpondemand.com")])
              (or_introl (or_introl eq_refl)) tokenless_world_has_the_file
              ltac:(discriminate) ltac:(discriminate) eq_refl)
    as (message & Hrun & Hmention & _ & Habsent & Hparse).
  exists message. split; [exact Hrun|]. split; [exact Hmention|]. split.
  - exact (Habsent bare_world [] bare_world_has_no_environment eq_refl).
  - exact (Hparse malformed_world [] "Unexpected end of JSON input"
             (or_introl (or_introl eq_refl)) eq_refl eq_refl).
Defined.

(** A configuration file holding [null] parses, and its
    [credentials.token] is absent; yet [loadConfig] fails on reading
    [credentials] from [null], with the message of that [TypeError]
    behind the parse-failure prefix, which says nothing of the token. *)
Lemma null_document_fails_without_token_message :
  (env_missing null_world "TP_DOMAIN" \/ env_missing null_world "TP_TOKEN")
  /\ files null_world !! ServerTs.configPath null_world = Some (Return JNull)
  /\ truthy (config_token JNull) = false
  /\ snd (ServerTs.loadConfig null_world []) =
       Throw (McpError (-32603)
                "Error parsing config file: Cannot read properties of null (reading 'credentials')")
  /\ contains "Personal Access Token"
       "Error parsing config file: Cannot read properties of null (reading 'credentials')"
     = false
  /\ contains "oken"
       "Error parsing config file: Cannot read properties of null (reading 'credentials')"
     = false.
Proof.
  split; [left; left; reflexivity|]. repeat (split; [reflexivity|]). reflexivity.
Qed.

Lemma service_handle_configuration_witness :
  @constructor_of nat cold_tools FileFallback domainless_world [] =
    ([FsExistsSync ["opt"; "tp-mcp"; "config"; "targetprocess.json"];
      FsReadFileSync ["opt"; "tp-mcp"; "config"; "targetprocess.json"]]
     ++ construction_effects domainless_config,
     Return fresh_server)
  /\ truthy (config_token domainless_config) = true.
Proof.
  assert (Hrun : @constructor_of nat cold_tools FileFallback domainless_world [] =
            ([FsExistsSync ["opt"; "tp-mcp"; "config"; "targetprocess.json"];
              FsReadFileSync ["opt"; "tp-mcp"; "config"; "targetprocess.json"]]
             ++ construction_effects domainless_config,
             Return fresh_server)) by reflexivity.
  split; [exact Hrun|].
  refine (proj1 (proj1 (@service_handle_configuration nat cold_tools FileFallback
                          domainless_world _ _ Hrun) domainless_config _)).
  apply list_elem_of_further, list_elem_of_further, list_elem_of_here.
Defined.

(** A configuration file with a token and no [domain] is accepted: the
    constructor creates the backend handle from a configuration whose
    [domain] is [undefined]. *)
Lemma file_configuration_without_domain_is_accepted :
  (env_missing domainless_world "TP_DOMAIN" \/ env_missing domainless_world "TP_TOKEN")
  /\ files domainless_world !! ServerTs.configPath domainless_world =
       Some (Return domainless_config)
  /\ snd (@ServerTs.constructor nat cold_tools domainless_world []) = Return fresh_server
  /\ NewTPService domainless_config ∈ fst (@ServerTs.constructor nat cold_tools domainless_world [])
  /\ config_domain domainless_config = JUndefined
  /\ nonempty_string (config_domain domainless_config) = false.
Proof.
  split; [left; left; reflexivity|]. split; [reflexivity|]. split; [reflexivity|].
  split; [|split; reflexivity].
  apply list_elem_of_further, list_elem_of_further, list_elem_of_here.
Qed.

Lemma cold_tools_warmup_rejects :
  @initializeEntityTypeCache nat cold_tools (service fresh_server) =
    (1%nat, Throw (ErrorInstance "connect ECONNREFUSED")).
Proof. reflexivity. Defined.

Lemma warmup_failure_is_only_logged_witness :
  @step_of nat cold_tools FileFallback fresh_server WarmupSettles =
    ({| service := 1%nat;
        console := [ConsoleError "Cache initialization error:"
                      (Some (ErrorInstance "connect ECONNREFUSED"))];
        warming := false; exit_code := None |}, None)
  /\ snd (@step_of nat cold_tools FileFallback
            (after_failed_warmup fresh_server 1%nat (ErrorInstance "connect ECONNREFUSED"))
            (CallToolRequest "get_entity" (JObject [("id", JNumber 42)])))
     = Some (Return (JObject [("Id", JNumber 42); ("Name", JString "Sprint demo")])).
Proof.
  destruct (@warmup_failure_is_only_logged nat cold_tools FileFallback fresh_server 1%nat
              (ErrorInstance "connect ECONNREFUSED") eq_refl eq_refl
              cold_tools_warmup_rejects)
    as (_ & Hstep & _ & _ & _ & _ & Hcall & _).
  split; [exact Hstep|].
  exact (Hcall GetEntityTool (JObject [("id", JNumber 42)]) 2%nat _ eq_refl).
Defined.

(** * Further properties of the module *)

(** ** Configuration resolution, case by case *)

Lemma env_complete_or_incomplete w :
  env_complete w \/ (env_missing w "TP_DOMAIN" \/ env_missing w "TP_TOKEN").
Proof.
  destruct (process_env_cases w "TP_DOMAIN") as [Hd | (domain & Hd & Hdne)]; [tauto|].
  destruct (process_env_cases w "TP_TOKEN") as [Ht | (token & Ht & Htne)]; [tauto|].
  left. by exists domain, token.
Qed.

Lemma env_complete_excludes_missing w :
  env_complete w -> ~ (env_missing w "TP_DOMAIN" \/ env_missing w "TP_TOKEN").
Proof.
  intros (domain & token & Hd & Hdne & Ht & Htne) [[H | H] | [H | H]]; congruence.
Qed.

Lemma file_fallback_from_environment w t domain token :
  env w !! "TP_DOMAIN" = Some domain -> domain <> "" ->
  env w !! "TP_TOKEN" = Some token -> token <> "" ->
  ServerTs.loadConfig w t =
    (t, Return (JObject [("domain", JString domain);
                         ("credentials", JObject [("token", JString token)])])).
Proof. exact (loadConfig_from_environment FileFallback w t domain token). Qed.

Lemma environment_only_from_environment w t domain token :
  env w !! "TP_DOMAIN" = Some domain -> domain <> "" ->
  env w !! "TP_TOKEN" = Some token -> token <> "" ->
  Part000.loadConfig w t =
    (t, Return (JObject [("domain", JString domain);
                         ("credentials", JObject [("token", JString token)])])).
Proof. exact (loadConfig_from_environment EnvironmentOnly w t domain token). Qed.

Lemma loadConfig_null_document_text w t doc :
  env_missing w "TP_DOMAIN" \/ env_missing w "TP_TOKEN" ->
  files w !! ServerTs.configPath w = Some (Return doc) ->
  doc = JNull \/ doc = JUndefined ->
  exists m,
    ServerTs.loadConfig w t =
      (t ++ [FsExistsSync (ServerTs.configPath w);
             FsReadFileSync (ServerTs.configPath w);
             ConsoleError ("Error parsing config file: " +:+ m) None],
       Throw (McpError ErrorCode.InternalError ("Error parsing config file: " +:+ m))).
Proof.
  intros Henv Hfile Hdoc. run_loadConfig.
  rewrite (environment_gate_closed _ Henv), Hfile.
  rewrite bool_decide_eq_true_2 by eauto.
  clear Hfile. generalize (ServerTs.configPath w). intros p.
  destruct Hdoc as [-> | ->]; eexists; cbn; rewrite <- !app_assoc; reflexivity.
Qed.

(** With the environment incomplete, [loadConfig] of [src/server.ts]
    ends in one of three ways. *)
Lemma file_fallback_outcomes w t :
  env_missing w "TP_DOMAIN" \/ env_missing w "TP_TOKEN" ->
  (exists doc,
     files w !! ServerTs.configPath w = Some (Return doc)
     /\ truthy (config_token doc) = true
     /\ ServerTs.loadConfig w t =
          (t ++ [FsExistsSync (ServerTs.configPath w);
                 FsReadFileSync (ServerTs.configPath w)], Return doc))
  \/ (files w !! ServerTs.configPath w = None
      /\ ServerTs.loadConfig w t =
           (t ++ [FsExistsSync (ServerTs.configPath w);
                  ConsoleError ServerTs.no_configuration_message None],
            Throw (McpError ErrorCode.InternalError ServerTs.no_configuration_message)))
  \/ (exists m,
        is_Some (files w !! ServerTs.configPath w)
        /\ ~ file_usable w
        /\ ServerTs.loadConfig w t =
             (t ++ [FsExistsSync (ServerTs.configPath w);
                    FsReadFileSync (ServerTs.configPath w);
                    ConsoleError ("Error parsing config file: " +:+ m) None],
              Throw (McpError ErrorCode.InternalError ("Error parsing config file: " +:+ m)))).
Proof.
  intros Henv.
  destruct (files w !! ServerTs.configPath w) as [[doc|e]|] eqn:Hfile.
  - destruct (truthy (config_token doc)) eqn:Htoken.
    + left. exists doc. split; [reflexivity|]. split; [exact Htoken|].
      by apply loadConfig_file_valid.
    + right. right.
      assert (Hunusable : ~ file_usable w).
      { intros (doc' & Hfile' & Htoken'). rewrite Hfile in Hfile'.
        injection Hfile' as <-. congruence. }
      assert (Hdoc : (doc = JNull \/ doc = JUndefined) \/ (doc <> JNull /\ doc <> JUndefined))
        by (destruct doc; auto; right; split; discriminate).
      destruct Hdoc as [Hdoc | [Hnull Hundef]].
      * destruct (loadConfig_null_document_text _ t _ Henv Hfile Hdoc) as [m Hrun].
        exists m. split; [eauto|]. split; [exact Hunusable | exact Hrun].
      * eexists. split; [eauto|]. split; [exact Hunusable|].
        exact (loadConfig_token_missing _ t _ Henv Hfile Hnull Hundef Htoken).
  - right. right. exists e. split; [eauto|]. split.
    + intros (doc' & Hfile' & _). rewrite Hfile in Hfile'. discriminate Hfile'.
    + by apply loadConfig_file_unreadable.
  - right. left. split; [reflexivity|]. by apply loadConfig_file_absent.
Qed.

(** X2: every failure of [loadConfig] in [src/server.ts] is an
    [McpError(InternalError)] whose message was written to the
    diagnostic stream as the last thing before the throw; the message is
    the no-configuration message or starts with
    ['Error parsing config file: ']. *)
Theorem file_fallback_failure_is_logged w t e :
  snd (ServerTs.loadConfig w t) = Throw e ->
  exists m,
    e = McpError ErrorCode.InternalError m
    /\ last (fst (ServerTs.loadConfig w t)) = Some (ConsoleError m None)
    /\ (m = ServerTs.no_configuration_message
        \/ String.prefix "Error parsing config file: " m = true).
Proof.
  destruct (env_complete_or_incomplete w) as [(d & k & Hd & Hdne & Hk & Hkne) | Henv].
  { rewrite (file_fallback_from_environment w t d k Hd Hdne Hk Hkne).
    discriminate. }
  destruct (file_fallback_outcomes w t Henv)
    as [(doc & _ & _ & ->) | [(_ & ->) | (m & _ & _ & ->)]]; cbn [fst snd].
  - discriminate.
  - intros [= <-]. eexists. split; [reflexivity|]. split; [|by left].
    change (t ++ [?a; ?b]) with (t ++ [a] ++ [b]).
    by rewrite app_assoc, last_snoc.
  - intros [= <-]. eexists. split; [reflexivity|]. split; [|right; apply prefix_append].
    change (t ++ [?a; ?b; ?c]) with (t ++ [a; b] ++ [c]).
    by rewrite app_assoc, last_snoc.
Qed.

(** X3: [loadConfig] of [src/server.ts] returns a configuration exactly
    when the environment gives both variables or the configuration file
    can be read and parsed and its document has a truthy
    [credentials.token]. *)
Theorem file_fallback_succeeds_iff w t :
  (exists config, snd (ServerTs.loadConfig w t) = Return config)
  <-> env_complete w \/ file_usable w.
Proof.
  split.
  - intros (config & Hrun).
    destruct (env_complete_or_incomplete w) as [Hc | Henv]; [by left|]. right.
    destruct (file_fallback_outcomes w t Henv)
      as [(doc & Hfile & Htoken & _) | [(_ & Hthrow) | (m & _ & _ & Hthrow)]].
    + by exists doc.
    + rewrite Hthrow in Hrun. discriminate Hrun.
    + rewrite Hthrow in Hrun. discriminate Hrun.
  - intros Hok.
    destruct (env_complete_or_incomplete w) as [(d & k & Hd & Hdne & Hk & Hkne) | Henv].
    { rewrite (file_fallback_from_environment w t d k Hd Hdne Hk Hkne). eauto. }
    destruct Hok as [Hc | (doc & Hfile & Htoken)].
    + by destruct (env_complete_excludes_missing w Hc).
    + rewrite (loadConfig_file_valid w t doc Henv Hfile Htoken). eauto.
Qed.

(** X4: [loadConfig] of the environment-only variant returns a
    configuration exactly when both variables are set and non-empty;
    whatever the outcome, it has no effect (no file-system call, no
    logging), and its only failure is the one
    [McpError(InternalError)] about the environment. *)
Theorem environment_only_succeeds_iff w t :
  ((exists config, snd (Part000.loadConfig w t) = Return config) <-> env_complete w)
  /\ fst (Part000.loadConfig w t) = t
  /\ (forall e, snd (Part000.loadConfig w t) = Throw e ->
        e = McpError ErrorCode.InternalError Part000.environment_required_message).
Proof.
  destruct (env_complete_or_incomplete w) as [Hc | Henv].
  - pose proof Hc as (d & k & Hd & Hdne & Hk & Hkne).
    rewrite (environment_only_from_environment w t d k Hd Hdne Hk Hkne).
    cbn [fst snd]. split; [split; eauto|]. split; [reflexivity | discriminate].
  - rewrite (loadConfig_environment_only_missing w t Henv). cbn [fst snd].
    split; [split|split; [reflexivity | by intros e [= <-]]].
    + intros (config & [=]).
    + intros Hc. by destruct (env_complete_excludes_missing w Hc).
Qed.

(** X5: whatever it does, [loadConfig] only appends configuration
    effects to what happened before; the one path it ever asks the file
    system about is the configuration path; it reads that file only
    after having tested, in the same call, that it exists; and it has no
    effect at all in the environment-only variant or when the
    environment is complete. *)
Theorem loadConfig_touches_only_the_configuration_path v w t :
  exists delta,
    fst (loadConfig_of v w t) = t ++ delta
    /\ Forall is_config_effect delta
    /\ (forall e p, e ∈ delta -> fs_path e = Some p -> p = ServerTs.configPath w)
    /\ (forall p, FsReadFileSync p ∈ delta ->
          is_Some (files w !! p) /\ head delta = Some (FsExistsSync p))
    /\ (v = EnvironmentOnly \/ env_complete w -> delta = []).
Proof.
  assert (Hnone : forall r, loadConfig_of v w t = (t, r) ->
            exists delta,
              fst (loadConfig_of v w t) = t ++ delta
              /\ Forall is_config_effect delta
              /\ (forall e p, e ∈ delta -> fs_path e = Some p -> p = ServerTs.configPath w)
              /\ (forall p, FsReadFileSync p ∈ delta ->
                    is_Some (files w !! p) /\ head delta = Some (FsExistsSync p))
              /\ (v = EnvironmentOnly \/ env_complete w -> delta = [])).
  { intros r ->. exists []. rewrite app_nil_r. split; [reflexivity|].
    split; [constructor|]. split; [intros e p H; by apply elem_of_nil in H|].
    split; [intros p H; by apply elem_of_nil in H | reflexivity]. }
  destruct (env_complete_or_incomplete w) as [(d & k & Hd & Hdne & Hk & Hkne) | Henv].
  { eapply Hnone, loadConfig_from_environment; eassumption. }
  destruct v; [|eapply Hnone, loadConfig_environment_only_missing; eassumption].
  clear Hnone. unfold loadConfig_of.
  assert (Hdead : EnvironmentOnly = FileFallback \/ env_complete w -> False).
  { intros [[=] | Hc]. by destruct (env_complete_excludes_missing w Hc). }
  destruct (file_fallback_outcomes w t Henv)
    as [(doc & Hfile & _ & ->) | [(Hfile & ->) | (m & Hfile & _ & ->)]]; cbn [fst].
  all: eexists; split; [reflexivity|].
  all: split; [repeat constructor|].
  all: split; [intros e p Hin Hp;
               repeat (apply elem_of_cons in Hin as [-> | Hin];
                       [cbn [fs_path] in Hp; congruence|]); by apply elem_of_nil in Hin|].
  all: split; [|intros [[=] | Hc]; by destruct (env_complete_excludes_missing w Hc)].
  all: intros p Hin;
       repeat (apply elem_of_cons in Hin as [Hin | Hin];
               [first [discriminate Hin | injection Hin as ->]|]);
       try (by apply elem_of_nil in Hin).
  all: split; [rewrite ?Hfile; eauto | reflexivity].
Qed.

(** X6: a configuration the environment-only variant returns is the
    configuration [src/server.ts] returns in the same world, with no
    effect in either. *)
Theorem environment_only_result_is_kept_by_file_fallback w t config :
  snd (Part000.loadConfig w t) = Return config ->
  ServerTs.loadConfig w t = (t, Return config)
  /\ Part000.loadConfig w t = (t, Return config).
Proof.
  destruct (env_complete_or_incomplete w) as [(d & k & Hd & Hdne & Hk & Hkne) | Henv].
  - rewrite (environment_only_from_environment w t d k Hd Hdne Hk Hkne).
    cbn [snd]. intros [= <-]. split; [|reflexivity].
    exact (file_fallback_from_environment w t d k Hd Hdne Hk Hkne).
  - rewrite (loadConfig_environment_only_missing w t Henv). discriminate.
Qed.

Lemma same_setting_missing w w' name :
  same_setting w w' name -> env_missing w name -> env_missing w' name.
Proof. unfold env_missing. intros [<- | [_ H]] Hm; assumption. Qed.

(** X7: [loadConfig] looks at nothing but the two variables, the
    module's directory and the files: two worlds that agree on the
    module's directory and on the files, and that give each of
    [TP_DOMAIN] and [TP_TOKEN] the same value or leave it missing or
    empty, get the same outcome, whatever their other variables and
    their working directories. *)
Theorem loadConfig_reads_only_two_variables v w w' t :
  module_dir w = module_dir w' ->
  files w = files w' ->
  same_setting w w' "TP_DOMAIN" ->
  same_setting w w' "TP_TOKEN" ->
  loadConfig_of v w t = loadConfig_of v w' t.
Proof.
  intros Hdir Hfiles Hsd Hst.
  destruct (env_complete_or_incomplete w) as [Hc | Henv].
  - pose proof Hc as (d & k & Hd & Hdne & Hk & Hkne).
    assert (Hd' : env w' !! "TP_DOMAIN" = Some d).
    { destruct Hsd as [<- | [Hm _]]; [exact Hd|].
      destruct (env_complete_excludes_missing w Hc); tauto. }
    assert (Hk' : env w' !! "TP_TOKEN" = Some k).
    { destruct Hst as [<- | [Hm _]]; [exact Hk|].
      destruct (env_complete_excludes_missing w Hc); tauto. }
    by rewrite !(loadConfig_from_environment v _ t d k).
  - assert (Henv' : env_missing w' "TP_DOMAIN" \/ env_missing w' "TP_TOKEN").
    { destruct Henv as [H | H]; [left | right]; eapply same_setting_missing; eassumption. }
    destruct v; unfold loadConfig_of.
    + run_loadConfig.
      rewrite (environment_gate_closed _ Henv), (environment_gate_closed _ Henv').
      unfold ServerTs.configPath. by rewrite Hdir, Hfiles.
    + by rewrite !loadConfig_environment_only_missing.
Qed.

Lemma loadConfig_appends_config_effects v w t :
  exists delta, fst (loadConfig_of v w t) = t ++ delta /\ Forall is_config_effect delta.
Proof.
  destruct (env_complete_or_incomplete w) as [(d & k & Hd & Hdne & Hk & Hkne) | Henv].
  { exists []. rewrite (loadConfig_from_environment v w t d k Hd Hdne Hk Hkne), app_nil_r.
    split; [reflexivity | constructor]. }
  destruct v; unfold loadConfig_of.
  - destruct (file_fallback_outcomes w t Henv)
      as [(doc & _ & _ & ->) | [(_ & ->) | (m & _ & _ & ->)]];
      eexists; (split; [reflexivity | repeat constructor]).
  - exists []. rewrite (loadConfig_environment_only_missing w t Henv), app_nil_r.
    split; [reflexivity | constructor].
Qed.

Ltac in_list := repeat first [apply list_elem_of_here | apply list_elem_of_further].

(** ** The class, beyond the handlers *)

Section Lifetime.
Context {Service : Type} `{!Collaborators Service}.
Implicit Types (s : Server Service) (e : Thrown) (v : Variant).

(** X1: with the environment incomplete, a configuration file whose
    document has a truthy [credentials.token] is handed to the backend
    handle exactly as parsed: whatever the one environment variable
    that may be set says, and with every other field of the document
    kept.  Nothing is logged on the way. *)
Theorem file_configuration_reaches_service_verbatim w t doc :
  env_missing w "TP_DOMAIN" \/ env_missing w "TP_TOKEN" ->
  files w !! ServerTs.configPath w = Some (Return doc) ->
  truthy (config_token doc) = true ->
  ServerTs.constructor w t =
    (t ++ [FsExistsSync (ServerTs.configPath w); FsReadFileSync (ServerTs.configPath w)]
       ++ construction_effects doc,
     Return {| service := TPService_new doc; console := []; warming := true;
               exit_code := None |}).
Proof.
  intros Henv Hfile Htoken.
  change (ServerTs.constructor w t) with (constructor_of FileFallback w t).
  rewrite constructor_run. unfold loadConfig_of.
  rewrite (loadConfig_file_valid w t doc Henv Hfile Htoken).
  by rewrite <- app_assoc.
Qed.

(** X8: construction is all or nothing.  Configuration resolution comes
    first and has only configuration effects.  If it throws, the
    constructor throws the same error and nothing else has happened: no
    handle, no tool, no protocol server, no handler, no signal hook, no
    warm-up.  If it returns, the constructor goes on to create the
    handle from that configuration, the five tools, the protocol
    server, the two handlers, the error sink and the signal hook, and
    to launch the warm-up as its last act. *)
Theorem construction_is_all_or_nothing v w t :
  exists delta,
    fst (loadConfig_of v w t) = t ++ delta
    /\ Forall is_config_effect delta
    /\ match snd (loadConfig_of v w t) with
       | Throw e => constructor_of v w t = (t ++ delta, Throw e)
       | Return config =>
           constructor_of v w t =
             (t ++ delta ++ construction_effects config,
              Return {| service := TPService_new config; console := [];
                        warming := true; exit_code := None |})
           /\ last (fst (constructor_of v w t)) = Some CallInitializeCache
       end.
Proof.
  destruct (loadConfig_appends_config_effects v w t) as (delta & Htrace & Hdelta).
  exists delta. split; [exact Htrace|]. split; [exact Hdelta|].
  rewrite constructor_run.
  destruct (loadConfig_of v w t) as [t' [config|e]]; cbn [fst snd] in *; subst t'.
  - rewrite <- app_assoc. split; [reflexivity|]. cbn [fst].
    unfold construction_effects.
    change (t ++ delta ++ ?a :: ?b :: ?c :: ?d :: ?e :: ?f :: ?g :: ?h :: ?i :: ?j :: ?k :: [?l])
      with (t ++ delta ++ [a; b; c; d; e; f; g; h; i; j; k] ++ [l]).
    by rewrite !app_assoc, last_snoc.
  - reflexivity.
Qed.

(** X9: what the server advertises is what it dispatches.  The
    capability flags given to the protocol server name exactly the five
    identifiers of the dispatch [switch], each set to [true]; every
    advertised name is routed to the [execute] of one tool, and the
    tools created are those five, once each. *)
Theorem advertised_capabilities_are_dispatchable v w trace server capabilities :
  constructor_of v w [] = (trace, Return server) ->
  NewServer capabilities ∈ trace ->
  map fst capabilities = registered_names
  /\ Forall (fun capability => snd capability = true) capabilities
  /\ (forall name, name ∈ map fst capabilities <-> exists tool, name = tool_name tool)
  /\ (forall tool arguments,
        dispatch_of v (tool_name tool) arguments = on_service (execute tool arguments))
  /\ (forall tool, NewTool tool ∈ trace).
Proof.
  rewrite constructor_run.
  destruct (loadConfig_appends_config_effects v w []) as (delta & Htrace & Hdelta).
  destruct (loadConfig_of v w []) as [t' [config|e]]; [|discriminate].
  cbn [fst] in Htrace. rewrite app_nil_l in Htrace. subst t'.
  intros [= <- <-] Hin.
  assert (Hcaps : capabilities =
            [("search_entities", true); ("get_entity", true); ("create_entity", true);
             ("update_entity", true); ("inspect_object", true)]).
  { apply elem_of_app in Hin as [Hin | Hin].
    - rewrite Forall_forall in Hdelta. by destruct (Hdelta _ Hin).
    - unfold construction_effects in Hin.
      repeat (apply elem_of_cons in Hin as [Hin | Hin];
              [first [discriminate Hin | by injection Hin]|]).
      by apply elem_of_nil in Hin. }
  subst capabilities. split; [reflexivity|]. split; [repeat constructor|].
  split; [|split].
  - intros name. cbn [map fst]. split.
    + intros Hname.
      repeat (apply elem_of_cons in Hname as [-> | Hname]).
      * by exists SearchTool.
      * by exists GetEntityTool.
      * by exists CreateEntityTool.
      * by exists UpdateEntityTool.
      * by exists InspectObjectTool.
      * by apply elem_of_nil in Hname.
    + intros [[] ->]; cbn [tool_name]; in_list.
  - intros tool arguments. apply dispatch_registered.
  - intros tool. apply elem_of_app. right. unfold construction_effects.
    destruct tool; in_list.
Qed.

Lemma step_request_frame v s ev :
  is_request ev ->
  console (fst (step_of v s ev)) = console s
  /\ warming (fst (step_of v s ev)) = warming s
  /\ exit_code (fst (step_of v s ev)) = exit_code s.
Proof.
  intros Hreq. rewrite step_unfold.
  destruct (exit_code s) eqn:Hexit; [by cbn|].
  destruct ev as [|name arguments| |e|]; try contradiction.
  - rewrite ListToolsRequestHandler_run. by cbn.
  - destruct (CallToolRequestHandler_of v name arguments s) as [s' r] eqn:Hh.
    apply handler_frame in Hh as (Hc & Hw & He). cbn [fst].
    repeat split; congruence.
Qed.

(** X10: requests touch nothing but the shared handle.  Through any
    sequence of discovery and dispatch requests, whatever the tools do
    and however they fail, nothing is written to the diagnostic stream,
    the warm-up flag stays as it is and the process does not exit. *)
Theorem requests_leave_diagnostics_alone v events :
  forall s,
    Forall is_request events ->
    console (fst (serve_of v s events)) = console s
    /\ warming (fst (serve_of v s events)) = warming s
    /\ exit_code (fst (serve_of v s events)) = exit_code s.
Proof.
  induction events as [|ev events IH]; intros s Hreq.
  - by destruct v.
  - apply Forall_cons in Hreq as [Hev Hreq].
    rewrite serve_unfold.
    destruct (step_request_frame v s ev Hev) as (Hc & Hw & He).
    destruct (step_of v s ev) as [s1 r1]. cbn [fst] in *.
    destruct (IH s1 Hreq) as (Hc' & Hw' & He').
    destruct (serve_of v s1 events) as [s2 rs]. cbn [fst] in *.
    by rewrite Hc', Hw', He'.
Qed.

(** X12: the dispatch handler keeps no state of its own: its answer and
    what it does to the shared handle depend on the handle alone, not
    on the diagnostic stream, on whether the warm-up has settled, or on
    anything else in the server. *)
Theorem dispatch_depends_only_on_service v name arguments s1 s2 :
  service s1 = service s2 ->
  snd (CallToolRequestHandler_of v name arguments s1)
    = snd (CallToolRequestHandler_of v name arguments s2)
  /\ service (fst (CallToolRequestHandler_of v name arguments s1))
    = service (fst (CallToolRequestHandler_of v name arguments s2)).
Proof.
  intros Hsv. rewrite !handler_unfold. unfold try_catch.
  assert (Hd : snd (dispatch_of v name arguments s1) = snd (dispatch_of v name arguments s2)
               /\ service (fst (dispatch_of v name arguments s1))
                  = service (fst (dispatch_of v name arguments s2))).
  { destruct v; unfold dispatch_of, ServerTs.dispatch, Part000.dispatch, on_service, throw;
      repeat case_match; cbn; split; congruence. }
  destruct (dispatch_of v name arguments s1) as [s1' [r1|e1]],
           (dispatch_of v name arguments s2) as [s2' [r2|e2]];
    cbn [fst snd] in Hd; destruct Hd as [Hr Hs]; try discriminate Hr.
  - by cbn.
  - injection Hr as <-. destruct (instanceof_McpError e1); [by cbn|].
    unfold bind, lift, ret. by destruct (describe e1).
Qed.

(** X13: [initializeCache] never rejects, whatever the collaborator
    does.  It performs the collaborator's call on the shared handle,
    writes nothing when the call resolves and one line when it rejects,
    and changes nothing else; settling the warm-up therefore never ends
    the process. *)
Theorem initializeCache_never_rejects v s :
  exists s',
    initializeCache_of v s = (s', Return tt)
    /\ service s' = fst (initializeEntityTypeCache (service s))
    /\ warming s' = warming s
    /\ exit_code s' = exit_code s
    /\ console s' =
         match snd (initializeEntityTypeCache (service s)) with
         | Return _ => console s
         | Throw e => console s ++ [ConsoleError "Cache initialization error:" (Some e)]
         end
    /\ exit_code (fst (step_of v s WarmupSettles)) = exit_code s.
Proof.
  assert (Hstep : exit_code (fst (step_of v s WarmupSettles)) = exit_code s).
  { rewrite step_unfold. destruct (exit_code s) eqn:Hexit; [exact Hexit|].
    destruct (warming s); [|exact Hexit].
    rewrite initializeCache_run.
    by destruct (initializeEntityTypeCache (service s)) as [sv [[]|e]]. }
  rewrite initializeCache_run.
  destruct (initializeEntityTypeCache (service s)) as [sv [[]|e]];
    eexists; (split; [reflexivity|]); cbn; auto.
Qed.

Lemma step_console_grows v s ev :
  exists added,
    console (fst (step_of v s ev)) = console s ++ added /\ Forall is_diagnostic added.
Proof.
  rewrite step_unfold.
  destruct (exit_code s) eqn:Hexit.
  { exists []. by rewrite app_nil_r. }
  destruct ev as [|name arguments| |e|].
  - exists []. by rewrite ListToolsRequestHandler_run, app_nil_r.
  - destruct (CallToolRequestHandler_of v name arguments s) as [s' r] eqn:Hh.
    apply handler_frame in Hh as (Hc & _). exists []. by rewrite app_nil_r.
  - destruct (warming s); [|exists []; by rewrite app_nil_r].
    rewrite initializeCache_run.
    destruct (initializeEntityTypeCache (service s)) as [sv [[]|e]]; cbn.
    + exists []. by rewrite app_nil_r.
    + eexists. split; [reflexivity|]. repeat constructor. exists e. by left.
  - cbn. eexists. split; [reflexivity|]. repeat constructor. exists e. by right.
  - exists []. by rewrite app_nil_r.
Qed.

Lemma serve_console_grows v events :
  forall s, exists added,
    console (fst (serve_of v s events)) = console s ++ added /\ Forall is_diagnostic added.
Proof.
  induction events as [|ev events IH]; intros s.
  - exists []. rewrite app_nil_r. by destruct v.
  - rewrite serve_unfold.
    destruct (step_console_grows v s ev) as (a1 & H1 & F1).
    destruct (step_of v s ev) as [s1 r1]. cbn [fst] in H1.
    destruct (IH s1) as (a2 & H2 & F2).
    destruct (serve_of v s1 events) as [s2 rs]. cbn [fst] in *.
    exists (a1 ++ a2). rewrite H2, H1, app_assoc. split; [reflexivity|].
    by apply Forall_app.
Qed.

(** X14: the diagnostic stream only grows, and while serving it grows
    only by warm-up failures and protocol errors: whatever the events,
    what was written stays written, in order, and every line added is a
    ['Cache initialization error:'] line or an ['[MCP Error]'] line
    carrying the error. *)
Theorem diagnostics_only_grow v events s :
  exists added,
    console (fst (serve_of v s events)) = console s ++ added
    /\ Forall is_diagnostic added
    /\ (forall line, line ∈ console s -> line ∈ console (fst (serve_of v s events))).
Proof.
  destruct (serve_console_grows v events s) as (added & Hgrow & Hkind).
  exists added. split; [exact Hgrow|]. split; [exact Hkind|].
  intros line Hin. rewrite Hgrow. apply elem_of_app. by left.
Qed.

(** X15: [run()] announces readiness only once the transport is
    connected.  If the connection fails, [run()] rejects with that
    failure and writes nothing; if it succeeds, [run()] writes the one
    notice carrying the timestamp, touches nothing else, and the notice
    is still on the diagnostic stream after any events served. *)
Theorem run_reports_readiness_after_connect v connect timestamp s events :
  match connect with
  | Throw e => run_of v connect timestamp s = (s, Throw e)
  | Return _ =>
      exists s',
        run_of v connect timestamp s = (s', Return tt)
        /\ console s' = console s ++ [readiness_notice timestamp]
        /\ service s' = service s /\ warming s' = warming s /\ exit_code s' = exit_code s
        /\ readiness_notice timestamp ∈ console (fst (serve_of v s' events))
  end.
Proof.
  destruct connect as [[]|e]; [|by destruct v].
  eexists. split; [by destruct v|]. cbn [console service warming exit_code].
  repeat (split; [reflexivity|]).
  match goal with |- _ ∈ console (fst (serve_of v ?s' events)) =>
    destruct (serve_console_grows v events s') as (added & -> & _) end.
  cbn [console]. apply elem_of_app. left. apply elem_of_app. right.
  apply list_elem_of_here.
Qed.
End Lifetime.

(** ** The further statements at concrete inputs *)

Lemma partial_world_lacks_token :
  env_missing partial_world "TP_DOMAIN" \/ env_missing partial_world "TP_TOKEN".
Proof. right. left. reflexivity. Defined.

Lemma partial_world_has_the_file :
  files partial_world !! ServerTs.configPath partial_world = Some (Return file_config).
Proof. reflexivity. Defined.

Lemma file_configuration_reaches_service_verbatim_witness :
  env partial_world !! "TP_DOMAIN" = Some "acme.tpondemand.com"
  /\ @ServerTs.constructor nat cold_tools partial_world [] =
       ([FsExistsSync ["opt"; "tp-mcp"; "config"; "targetprocess.json"];
         FsReadFileSync ["opt"; "tp-mcp"; "config"; "targetprocess.json"]]
        ++ construction_effects file_config,
        Return fresh_server).
Proof.
  split; [reflexivity|].
  exact (@file_configuration_reaches_service_verbatim nat cold_tools partial_world []
           file_config partial_world_lacks_token partial_world_has_the_file eq_refl).
Defined.

Lemma file_fallback_failure_is_logged_witness :
  exists m,
    McpError (-32603) ServerTs.no_configuration_message = McpError ErrorCode.InternalError m
    /\ last (fst (ServerTs.loadConfig bare_world [])) = Some (ConsoleError m None)
    /\ (m = ServerTs.no_configuration_message
        \/ String.prefix "Error parsing config file: " m = true).
Proof.
  exact (file_fallback_failure_is_logged bare_world []
           (McpError (-32603) ServerTs.no_configuration_message) eq_refl).
Defined.

Lemma file_fallback_succeeds_iff_witness :
  exists config, snd (ServerTs.loadConfig partial_world []) = Return config.
Proof.
  apply (proj2 (file_fallback_succeeds_iff partial_world [])).
  right. exists file_config. split; [exact partial_world_has_the_file | reflexivity].
Defined.

Lemma env_world_is_complete : env_complete env_world.
Proof.
  exists "acme.tpondemand.com", "secret-token".
  split; [reflexivity|]. split; [discriminate|]. split; [reflexivity | discriminate].
Defined.

Lemma environment_only_succeeds_iff_witness :
  (exists config, snd (Part000.loadConfig env_world []) = Return config)
  /\ ~ (exists config, snd (Part000.loadConfig partial_world []) = Return config).
Proof.
  split.
  - exact (proj2 (proj1 (environment_only_succeeds_iff env_world [])) env_world_is_complete).
  - intros Hok.
    apply (proj1 (proj1 (environment_only_succeeds_iff partial_world []))) in Hok.
    exact (env_complete_excludes_missing _ Hok partial_world_lacks_token).
Defined.

Lemma environment_only_result_is_kept_by_file_fallback_witness :
  ServerTs.loadConfig env_world [] =
    ([], Return (JObject [("domain", JString "acme.tpondemand.com");
                          ("credentials", JObject [("token", JString "secret-token")])])).
Proof.
  exact (proj1 (environment_only_result_is_kept_by_file_fallback env_world [] _ eq_refl)).
Defined.

Lemma loadConfig_reads_only_two_variables_witness :
  cwd partial_world <> cwd partial_world_elsewhere
  /\ env partial_world_elsewhere !! "TP_TOKEN" = Some ""
  /\ loadConfig_of FileFallback partial_world [] =
     loadConfig_of FileFallback partial_world_elsewhere [].
Proof.
  split; [discriminate|]. split; [reflexivity|].
  apply loadConfig_reads_only_two_variables.
  - reflexivity.
  - reflexivity.
  - left. reflexivity.
  - right. split; [left | right]; reflexivity.
Defined.

Lemma advertised_capabilities_are_dispatchable_witness :
  map fst [("search_entities", true); ("get_entity", true); ("create_entity", true);
           ("update_entity", true); ("inspect_object", true)] = registered_names
  /\ NewTool InspectObjectTool ∈ fst (@constructor_of nat cold_tools FileFallback env_world []).
Proof.
  assert (Hrun : @constructor_of nat cold_tools FileFallback env_world [] =
            (fst (@constructor_of nat cold_tools FileFallback env_world []),
             Return fresh_server)) by reflexivity.
  assert (Hin : NewServer [("search_entities", true); ("get_entity", true);
                           ("create_entity", true); ("update_entity", true);
                           ("inspect_object", true)]
                ∈ fst (@constructor_of nat cold_tools FileFallback env_world []))
    by (cbn; in_list).
  destruct (@advertised_capabilities_are_dispatchable nat cold_tools FileFallback env_world
              _ _ _ Hrun Hin) as (Hnames & _ & _ & _ & Htools).
  split; [exact Hnames | exact (Htools InspectObjectTool)].
Defined.

Lemma requests_leave_diagnostics_alone_witness :
  console (fst (@serve_of nat failing_tools FileFallback fresh_server
                  [ListToolsRequest; CallToolRequest "get_entity" JUndefined;
                   CallToolRequest "delete_entity" JNull])) = []
  /\ exit_code (fst (@serve_of nat failing_tools FileFallback fresh_server
                       [ListToolsRequest; CallToolRequest "get_entity" JUndefined;
                        CallToolRequest "delete_entity" JNull])) = None.
Proof.
  destruct (@requests_leave_diagnostics_alone nat failing_tools FileFallback
              [ListToolsRequest; CallToolRequest "get_entity" JUndefined;
               CallToolRequest "delete_entity" JNull] fresh_server)
    as (Hc & _ & He); [repeat constructor|].
  split; [exact Hc | exact He].
Defined.

Lemma dispatch_depends_only_on_service_witness :
  snd (@CallToolRequestHandler_of nat cold_tools FileFallback "get_entity" JUndefined
         fresh_server)
  = snd (@CallToolRequestHandler_of nat cold_tools FileFallback "get_entity" JUndefined
           (after_failed_warmup fresh_server 0%nat (ErrorInstance "connect ECONNREFUSED"))).
Proof.
  exact (proj1 (@dispatch_depends_only_on_service nat cold_tools FileFallback "get_entity"
                  JUndefined fresh_server
                  (after_failed_warmup fresh_server 0%nat
                     (ErrorInstance "connect ECONNREFUSED")) eq_refl)).
Defined.
